(** * DiscordHooks.embed: validating setters and the [dict] serialisation

    A shallow embedding of [src/DiscordHooks/embed.py].

    - Python values are the inductive [value]; a [dict] and the attribute
      store of an instance ([__dict__]) are finite maps with string keys.
    - A method body runs in the monad [M]: it threads the attribute store of
      [self] and may raise.  The store reached when an exception is raised is
      kept, as in Python, where the assignments made before a [raise] stay.
    - Instances are modelled by value (class tag and attribute store); no
      property below depends on two names sharing one instance.
    - A [str] is a Coq [string], one [ascii] per character, so that [len] is
      [String.length]. *)

From stdpp Require Import gmap strings list fin_maps.
From Stdlib Require Import ZArith.

#[local] Open Scope string_scope.

(** ** Values *)

Inductive pyclass :=
| C_EmbedFooter | C_EmbedImage | C_EmbedVideo | C_EmbedThumbnail
| C_EmbedProvider | C_EmbedAuthor | C_EmbedField | C_Embed.

#[global] Instance pyclass_eq_dec : EqDecision pyclass.
Proof. solve_decision. Defined.

(** The second argument of [isinstance] as the module uses it. *)
Inductive pytype := str | int | list_t | dict_t | datetime | cls (c : pyclass).

Set Warnings "-register-all".

Inductive value : Type :=
| VNone
| VBool (b : bool)
| VInt (n : Z)
| VStr (s : string)
| VDatetime (t : Z)
| VList (l : list value)
| VDict (d : gmap string value)
| VObj (c : pyclass) (slots : gmap string value).

Inductive exn :=
| TypeError (msg : string)
| ValueError (msg : string)
| AttributeError (msg : string).

Inductive outcome (A : Type) :=
| Returned (a : A)
| Raised (e : exn).
Arguments Returned {A} a.
Arguments Raised {A} e.

(** ** The monad of method bodies *)

Definition M (A : Type) : Type :=
  gmap string value -> gmap string value * outcome A.

#[global] Instance outcome_ret : MRet outcome := fun A a => Returned a.
#[global] Instance outcome_bind : MBind outcome :=
  fun A B f m => match m with Returned a => f a | Raised e => Raised e end.

#[global] Instance M_ret : MRet M := fun A a self => (self, Returned a).
#[global] Instance M_bind : MBind M :=
  fun A B f m self =>
    match m self with
    | (self', Returned a) => f a self'
    | (self', Raised e) => (self', Raised e)
    end.

Definition raise {A} (e : exn) : M A := fun self => (self, Raised e).
Definition lift {A} (r : outcome A) : M A := fun self => (self, r).

(** [if b: body] *)
Definition when (b : bool) (body : M unit) : M unit :=
  if b then body else mret tt.

(** [self.<name> = v] on a plain (underscore) attribute. *)
Definition setattr (name : string) (v : value) : M unit :=
  fun self => (<[name := v]> self, Returned tt).

(** [self.<name>] on a plain attribute. *)
Definition getslot (name : string) : M value :=
  fun self =>
    match self !! name with
    | Some v => (self, Returned v)
    | None => (self, Raised (AttributeError ("object has no attribute '" ++ name ++ "'")))
    end.

(** [self.<name>.append(x)] *)
Definition append (name : string) (x : value) : M unit :=
  l ← getslot name;
  match l with
  | VList xs => setattr name (VList (xs ++ [x]))
  | _ => raise (AttributeError "object has no attribute 'append'")
  end.

(** [for x in xs: body x] *)
Fixpoint for_each (xs : list value) (body : value -> M unit) : M unit :=
  match xs with
  | [] => mret tt
  | x :: xs' => body x;; for_each xs' body
  end.

(** ** Builtins *)

Definition is_None (v : value) : bool :=
  match v with VNone => true | _ => false end.

(** [bool] is a subclass of [int]. *)
Definition isinstance (v : value) (t : pytype) : bool :=
  match v, t with
  | VStr _, str => true
  | VInt _, int => true
  | VBool _, int => true
  | VList _, list_t => true
  | VDict _, dict_t => true
  | VDatetime _, datetime => true
  | VObj c _, cls c' => bool_decide (c = c')
  | _, _ => false
  end.

Definition type_name (v : value) : string :=
  match v with
  | VNone => "NoneType"
  | VBool _ => "bool"
  | VInt _ => "int"
  | VStr _ => "str"
  | VDatetime _ => "datetime.datetime"
  | VList _ => "list"
  | VDict _ => "dict"
  | VObj C_EmbedFooter _ => "EmbedFooter"
  | VObj C_EmbedImage _ => "EmbedImage"
  | VObj C_EmbedVideo _ => "EmbedVideo"
  | VObj C_EmbedThumbnail _ => "EmbedThumbnail"
  | VObj C_EmbedProvider _ => "EmbedProvider"
  | VObj C_EmbedAuthor _ => "EmbedAuthor"
  | VObj C_EmbedField _ => "EmbedField"
  | VObj C_Embed _ => "Embed"
  end.

(** [len(v)]: defined on strings, lists and dicts, a [TypeError] elsewhere,
    in particular on [None]. *)
Definition len (v : value) : outcome nat :=
  match v with
  | VStr s => Returned (String.length s)
  | VList l => Returned (length l)
  | VDict d => Returned (size d)
  | _ => Raised (TypeError ("object of type '" ++ type_name v ++ "' has no len()"))
  end.

(** The elements a [for] loop visits. *)
Definition elements_of (v : value) : list value :=
  match v with VList l => l | _ => [] end.

(** A class called with the dict [obj] unpacked into keyword arguments
    (double-star call): the keys of [obj] are bound to the parameters of
    [__init__], every one of which defaults to [None]; a key that is no
    parameter is a [TypeError] raised before the body runs.  (With several
    such keys CPython names the first inserted one; a [gmap] keeps no
    insertion order and the first one in map order is named.) *)
Definition kwargs (params : list string) (obj : value) : outcome (string -> value) :=
  match obj with
  | VDict d =>
      match filter (fun k => k ∉ params) (map_to_list d).*1 with
      | [] => Returned (fun k => default VNone (d !! k))
      | k :: _ =>
          Raised (TypeError ("__init__() got an unexpected keyword argument '" ++ k ++ "'"))
      end
  | _ => Raised (TypeError "argument after ** must be a mapping")
  end.

(** [Cls(...)]: [__init__] runs on a fresh instance; the instance exists for
    the caller only if [__init__] returns. *)
Definition new (c : pyclass) (init : M unit) : outcome value :=
  match init ∅ with
  | (self, Returned _) => Returned (VObj c self)
  | (_, Raised e) => Raised e
  end.

(** ** BaseSerializable *)

Module BaseSerializable.

(** Every property getter of the module is [return self._<key>]. *)
Definition property (key : string) : M value := getslot ("_" ++ key).

(** [{key: getattr(self, key) for key in self.__items__
      if getattr(self, key) is not None}] *)
Fixpoint comprehension (keys : list string) (acc : gmap string value)
  : M (gmap string value) :=
  match keys with
  | [] => mret acc
  | key :: keys' =>
      c ← property key;
      if negb (is_None c)
      then v ← property key; comprehension keys' (<[key := v]> acc)
      else comprehension keys' acc
  end.

(** The [dict] property; [__items__] is the class attribute of [self]. *)
Definition dict (__items__ : list string) : M (gmap string value) :=
  comprehension __items__ ∅.

End BaseSerializable.

(** ** EmbedFooter *)

Module EmbedFooter.

Definition __items__ : list string := ["text"; "icon_url"].

Definition text_setter (text : value) : M unit :=
  when (negb (is_None text) && negb (isinstance text str))
    (raise (TypeError "text must be string"));;
  n ← lift (len text);
  when (bool_decide (2048 < n))
    (raise (ValueError "text length must be up to 2048 characters"));;
  setattr "_text" text.

Definition icon_url_setter (icon_url : value) : M unit :=
  when (negb (is_None icon_url) && negb (isinstance icon_url str))
    (raise (TypeError "icon_url must be string"));;
  setattr "_icon_url" icon_url.

Definition __init__ (text icon_url : value) : M unit :=
  text_setter text;;
  icon_url_setter icon_url.

Definition from_dict (obj : value) : outcome value :=
  kw ← kwargs ["text"; "icon_url"] obj;
  new C_EmbedFooter (__init__ (kw "text") (kw "icon_url")).

End EmbedFooter.

(** ** EmbedImage *)

Module EmbedImage.

Definition __items__ : list string := ["url"].

Definition url_setter (url : value) : M unit :=
  when (negb (is_None url) && negb (isinstance url str))
    (raise (TypeError "url must be string"));;
  setattr "_url" url.

Definition __init__ (url : value) : M unit :=
  url_setter url.

Definition from_dict (obj : value) : outcome value :=
  kw ← kwargs ["url"] obj;
  new C_EmbedImage (__init__ (kw "url")).

End EmbedImage.

(** ** EmbedVideo *)

Module EmbedVideo.

Definition __items__ : list string := ["url"; "height"; "width"].

Definition url_setter (url : value) : M unit :=
  when (negb (is_None url) && negb (isinstance url str))
    (raise (TypeError "url must be string"));;
  setattr "_url" url.

Definition height_setter (height : value) : M unit :=
  when (negb (is_None height) && negb (isinstance height int))
    (raise (TypeError "height must be int"));;
  setattr "_height" height.

Definition width_setter (width : value) : M unit :=
  when (negb (is_None width) && negb (isinstance width int))
    (raise (TypeError "width must be int"));;
  setattr "_width" width.

Definition __init__ (url height width : value) : M unit :=
  url_setter url;;
  height_setter height;;
  width_setter width.

Definition from_dict (obj : value) : outcome value :=
  kw ← kwargs ["url"; "height"; "width"] obj;
  new C_EmbedVideo (__init__ (kw "url") (kw "height") (kw "width")).

End EmbedVideo.

(** ** EmbedThumbnail *)

Module EmbedThumbnail.

Definition __items__ : list string := ["url"].

Definition url_setter (url : value) : M unit :=
  when (negb (is_None url) && negb (isinstance url str))
    (raise (TypeError "url must be string"));;
  setattr "_url" url.

Definition __init__ (url : value) : M unit :=
  url_setter url.

Definition from_dict (obj : value) : outcome value :=
  kw ← kwargs ["url"] obj;
  new C_EmbedThumbnail (__init__ (kw "url")).

End EmbedThumbnail.

(** ** EmbedProvider *)

Module EmbedProvider.

Definition __items__ : list string := ["name"; "url"].

Definition name_setter (name : value) : M unit :=
  when (negb (is_None name) && negb (isinstance name str))
    (raise (TypeError "name must be string"));;
  setattr "_name" name.

Definition url_setter (url : value) : M unit :=
  when (negb (is_None url) && negb (isinstance url str))
    (raise (TypeError "url must be string"));;
  setattr "_url" url.

Definition __init__ (name url : value) : M unit :=
  name_setter name;;
  url_setter url.

Definition from_dict (obj : value) : outcome value :=
  kw ← kwargs ["name"; "url"] obj;
  new C_EmbedProvider (__init__ (kw "name") (kw "url")).

End EmbedProvider.

(** ** EmbedAuthor *)

Module EmbedAuthor.

Definition __items__ : list string := ["name"; "url"; "icon_url"].

Definition name_setter (name : value) : M unit :=
  when (negb (is_None name) && negb (isinstance name str))
    (raise (TypeError "name must be string"));;
  n ← lift (len name);
  when (bool_decide (256 < n))
    (raise (ValueError "name length must be up to 256 characters"));;
  setattr "_name" name.

Definition url_setter (url : value) : M unit :=
  when (negb (is_None url) && negb (isinstance url str))
    (raise (TypeError "url must be string"));;
  setattr "_url" url.

Definition icon_url_setter (icon_url : value) : M unit :=
  when (negb (is_None icon_url) && negb (isinstance icon_url str))
    (raise (TypeError "icon_url must be string"));;
  setattr "_icon_url" icon_url.

Definition __init__ (name url icon_url : value) : M unit :=
  name_setter name;;
  url_setter url;;
  icon_url_setter icon_url.

Definition from_dict (obj : value) : outcome value :=
  kw ← kwargs ["name"; "url"; "icon_url"] obj;
  new C_EmbedAuthor (__init__ (kw "name") (kw "url") (kw "icon_url")).

End EmbedAuthor.

(** ** EmbedField *)

Module EmbedField.

Definition __items__ : list string := ["name"; "value"].

Definition name_setter (name : value) : M unit :=
  when (negb (is_None name) && negb (isinstance name str))
    (raise (TypeError "name must be string"));;
  n ← lift (len name);
  when (bool_decide (256 < n))
    (raise (ValueError "name length must be up to 256 characters"));;
  setattr "_name" name.

Definition value_setter (value : value) : M unit :=
  when (negb (is_None value) && negb (isinstance value str))
    (raise (TypeError "value must be string"));;
  n ← lift (len value);
  when (bool_decide (1024 < n))
    (raise (ValueError "value length must be up to 1024 characters"));;
  setattr "_value" value.

Definition __init__ (name value : value) : M unit :=
  name_setter name;;
  value_setter value.

Definition from_dict (obj : value) : outcome value :=
  kw ← kwargs ["name"; "value"] obj;
  new C_EmbedField (__init__ (kw "name") (kw "value")).

End EmbedField.

(** ** Embed *)

Module Embed.

Definition __items__ : list string :=
  ["title"; "description"; "url"; "timestamp"; "color";
   "footer"; "image"; "thumbnail"; "video"; "provider";
   "author"; "fields"].

Definition title_setter (title : value) : M unit :=
  when (negb (is_None title) && negb (isinstance title str))
    (raise (TypeError "title must be string"));;
  too_long ← (if isinstance title str
              then n ← lift (len title); mret (bool_decide (256 < n))
              else mret false);
  when too_long
    (raise (ValueError "title length must be up to 256 characters"));;
  setattr "_title" title.

Definition description_setter (description : value) : M unit :=
  when (negb (is_None description) && negb (isinstance description str))
    (raise (TypeError "description must be string"));;
  too_long ← (if isinstance description str
              then n ← lift (len description); mret (bool_decide (2048 < n))
              else mret false);
  when too_long
    (raise (ValueError "description length must be up to 2048 characters"));;
  setattr "_description" description.

Definition url_setter (url : value) : M unit :=
  when (negb (is_None url) && negb (isinstance url str))
    (raise (TypeError "url must be string"));;
  setattr "_url" url.

Definition timestamp_setter (timestamp : value) : M unit :=
  when (negb (is_None timestamp) && negb (isinstance timestamp datetime))
    (raise (TypeError "timestamp must be datetime"));;
  setattr "_timestamp" timestamp.

Definition color_setter (color : value) : M unit :=
  when (negb (is_None color) && negb (isinstance color int))
    (raise (TypeError "color must be int"));;
  setattr "_color" color.

Definition footer_setter (footer : value) : M unit :=
  when (negb (is_None footer) && negb (isinstance footer (cls C_EmbedFooter)))
    (raise (TypeError "footer must be EmbedFooter object"));;
  setattr "_footer" footer.

Definition image_setter (image : value) : M unit :=
  when (negb (is_None image) && negb (isinstance image (cls C_EmbedImage)))
    (raise (TypeError "image must be EmbedImage object"));;
  setattr "_image" image.

Definition thumbnail_setter (thumbnail : value) : M unit :=
  when (negb (is_None thumbnail) && negb (isinstance thumbnail (cls C_EmbedThumbnail)))
    (raise (TypeError "thumbnail must be EmbedThumbnail object"));;
  setattr "_thumbnail" thumbnail.

Definition video_setter (video : value) : M unit :=
  when (negb (is_None video) && negb (isinstance video (cls C_EmbedVideo)))
    (raise (TypeError "video must be EmbedVideo object"));;
  setattr "_video" video.

Definition provider_setter (provider : value) : M unit :=
  when (negb (is_None provider) && negb (isinstance provider (cls C_EmbedProvider)))
    (raise (TypeError "provider must be EmbedProvider object"));;
  setattr "_provider" provider.

Definition author_setter (author : value) : M unit :=
  when (negb (is_None author) && negb (isinstance author (cls C_EmbedAuthor)))
    (raise (TypeError "author must be EmbedAuthor object"));;
  setattr "_author" author.

(** The body of the [for field in fields] loop. *)
Definition fields_item (field : value) : M unit :=
  if isinstance field (cls C_EmbedField) then
    append "_fields" field
  else if isinstance field dict_t then
    f ← lift (EmbedField.from_dict field);
    append "_fields" f
  else
    raise (TypeError "fields items must be EmbedField or dict").

Definition fields_setter (fields : value) : M unit :=
  if is_None fields then
    setattr "_fields" (VList [])
  else
    when (negb (isinstance fields list_t))
      (raise (TypeError "embeds must be list"));;
    n ← lift (len fields);
    when (bool_decide (25 < n))
      (raise (ValueError "embed can contain up to 25 field objects"));;
    setattr "_fields" (VList []);;
    for_each (elements_of fields) fields_item.

Definition __init__
  (title description url timestamp color footer image thumbnail video
     provider author fields : value) : M unit :=
  title_setter title;;
  description_setter description;;
  url_setter url;;
  timestamp_setter timestamp;;
  color_setter color;;
  footer_setter footer;;
  image_setter image;;
  thumbnail_setter thumbnail;;
  video_setter video;;
  provider_setter provider;;
  author_setter author;;
  fields_setter fields.

Definition from_dict (obj : value) : outcome value :=
  kw ← kwargs ["title"; "description"; "url"; "timestamp"; "color";
               "footer"; "image"; "thumbnail"; "video"; "provider";
               "author"; "fields"] obj;
  new C_Embed
    (__init__ (kw "title") (kw "description") (kw "url") (kw "timestamp")
       (kw "color") (kw "footer") (kw "image") (kw "thumbnail") (kw "video")
       (kw "provider") (kw "author") (kw "fields")).

End Embed.

(** ** The classes as a table

    What Python resolves through the class of an instance: its [__items__],
    its constructor, its [from_dict] and the setter behind each property. *)

Definition items (c : pyclass) : list string :=
  match c with
  | C_EmbedFooter => EmbedFooter.__items__
  | C_EmbedImage => EmbedImage.__items__
  | C_EmbedVideo => EmbedVideo.__items__
  | C_EmbedThumbnail => EmbedThumbnail.__items__
  | C_EmbedProvider => EmbedProvider.__items__
  | C_EmbedAuthor => EmbedAuthor.__items__
  | C_EmbedField => EmbedField.__items__
  | C_Embed => Embed.__items__
  end.

(** A constructor call: [kw] gives each parameter its argument ([None],
    the default, where the caller passes none). *)
Definition init (c : pyclass) (kw : string -> value) : M unit :=
  match c with
  | C_EmbedFooter => EmbedFooter.__init__ (kw "text") (kw "icon_url")
  | C_EmbedImage => EmbedImage.__init__ (kw "url")
  | C_EmbedVideo => EmbedVideo.__init__ (kw "url") (kw "height") (kw "width")
  | C_EmbedThumbnail => EmbedThumbnail.__init__ (kw "url")
  | C_EmbedProvider => EmbedProvider.__init__ (kw "name") (kw "url")
  | C_EmbedAuthor => EmbedAuthor.__init__ (kw "name") (kw "url") (kw "icon_url")
  | C_EmbedField => EmbedField.__init__ (kw "name") (kw "value")
  | C_Embed =>
      Embed.__init__ (kw "title") (kw "description") (kw "url") (kw "timestamp")
        (kw "color") (kw "footer") (kw "image") (kw "thumbnail") (kw "video")
        (kw "provider") (kw "author") (kw "fields")
  end.

Definition construct (c : pyclass) (kw : string -> value) : outcome value :=
  new c (init c kw).

Definition from_dict (c : pyclass) (obj : value) : outcome value :=
  match c with
  | C_EmbedFooter => EmbedFooter.from_dict obj
  | C_EmbedImage => EmbedImage.from_dict obj
  | C_EmbedVideo => EmbedVideo.from_dict obj
  | C_EmbedThumbnail => EmbedThumbnail.from_dict obj
  | C_EmbedProvider => EmbedProvider.from_dict obj
  | C_EmbedAuthor => EmbedAuthor.from_dict obj
  | C_EmbedField => EmbedField.from_dict obj
  | C_Embed => Embed.from_dict obj
  end.

(** The properties of each class with their setters, in declaration order. *)
Definition properties (c : pyclass) : list (string * (value -> M unit)) :=
  match c with
  | C_EmbedFooter =>
      [("text", EmbedFooter.text_setter); ("icon_url", EmbedFooter.icon_url_setter)]
  | C_EmbedImage => [("url", EmbedImage.url_setter)]
  | C_EmbedVideo =>
      [("url", EmbedVideo.url_setter); ("height", EmbedVideo.height_setter);
       ("width", EmbedVideo.width_setter)]
  | C_EmbedThumbnail => [("url", EmbedThumbnail.url_setter)]
  | C_EmbedProvider =>
      [("name", EmbedProvider.name_setter); ("url", EmbedProvider.url_setter)]
  | C_EmbedAuthor =>
      [("name", EmbedAuthor.name_setter); ("url", EmbedAuthor.url_setter);
       ("icon_url", EmbedAuthor.icon_url_setter)]
  | C_EmbedField =>
      [("name", EmbedField.name_setter); ("value", EmbedField.value_setter)]
  | C_Embed =>
      [("title", Embed.title_setter); ("description", Embed.description_setter);
       ("url", Embed.url_setter); ("timestamp", Embed.timestamp_setter);
       ("color", Embed.color_setter); ("footer", Embed.footer_setter);
       ("image", Embed.image_setter); ("thumbnail", Embed.thumbnail_setter);
       ("video", Embed.video_setter); ("provider", Embed.provider_setter);
       ("author", Embed.author_setter); ("fields", Embed.fields_setter)]
  end.

Fixpoint assoc {A} (k : string) (l : list (string * A)) : option A :=
  match l with
  | [] => None
  | (k', a) :: l' => if String.eqb k' k then Some a else assoc k l'
  end.

Definition setter (c : pyclass) (attr : string) : option (value -> M unit) :=
  assoc attr (properties c).

(** [self.dict] *)
Definition dict (self : value) : outcome (gmap string value) :=
  match self with
  | VObj c slots => (BaseSerializable.dict (items c) slots).2
  | _ => Raised (AttributeError ("'" ++ type_name self ++ "' object has no attribute 'dict'"))
  end.

(** [self.<attr> = v]: the instance after the statement and whether the
    statement raised.  A property goes through its setter; any other name
    is a plain attribute of the instance. *)
Definition assign (self : value) (attr : string) (v : value) : value * outcome unit :=
  match self with
  | VObj c slots =>
      match setter c attr with
      | Some set => let '(slots', r) := set v slots in (VObj c slots', r)
      | None => (VObj c (<[attr := v]> slots), Returned tt)
      end
  | _ =>
      (self, Raised (AttributeError
                       ("'" ++ type_name self ++ "' object has no attribute '" ++ attr ++ "'")))
  end.

(** [self.<attr>] for a property [attr] of the class of [self]. *)
Definition getattr (self : value) (attr : string) : outcome value :=
  match self with
  | VObj c slots => (BaseSerializable.property attr slots).2
  | _ =>
      Raised (AttributeError
                ("'" ++ type_name self ++ "' object has no attribute '" ++ attr ++ "'"))
  end.

(** ** Instances the program can hold

    An instance of class [c] comes from a constructor call that returned and
    from any number of later assignments to its properties, whether the
    assignment returned or raised. *)

Inductive reachable (c : pyclass) : value -> Prop :=
| reachable_new (kw : string -> value) (x : value) :
    construct c kw = Returned x -> reachable c x
| reachable_assign (x : value) (attr : string) (v : value) :
    reachable c x -> attr ∈ items c -> reachable c (assign x attr v).1.

Definition leaf (c : pyclass) : bool :=
  match c with C_Embed => false | _ => true end.

(** The keyword arguments given by an association list. *)
Definition args (l : list (string * value)) : string -> value :=
  fun k => default VNone (assoc k l).

(** ** What each setter lets through

    The test each setter makes before it stores its argument, read off the
    setter bodies; [setter_accepts] and [setter_rejects] below tie the two. *)

Definition optional (t : pytype) (v : value) : bool :=
  is_None v || isinstance v t.

Definition str_upto (n : nat) (v : value) : bool :=
  match v with
  | VStr s => negb (bool_decide (n < String.length s))
  | _ => false
  end.

Definition field_list (v : value) : bool :=
  match v with
  | VList l =>
      forallb (fun f => isinstance f (cls C_EmbedField)) l
      && negb (bool_decide (25 < length l))
  | _ => false
  end.

Definition optional_str_upto (n : nat) (v : value) : bool :=
  is_None v || str_upto n v.

Definition admits (c : pyclass) (attr : string) : value -> bool :=
  match c, attr with
  | C_EmbedFooter, "text" => str_upto 2048
  | C_EmbedFooter, "icon_url" => optional str
  | C_EmbedImage, "url" => optional str
  | C_EmbedVideo, "url" => optional str
  | C_EmbedVideo, "height" => optional int
  | C_EmbedVideo, "width" => optional int
  | C_EmbedThumbnail, "url" => optional str
  | C_EmbedProvider, "name" => optional str
  | C_EmbedProvider, "url" => optional str
  | C_EmbedAuthor, "name" => str_upto 256
  | C_EmbedAuthor, "url" => optional str
  | C_EmbedAuthor, "icon_url" => optional str
  | C_EmbedField, "name" => str_upto 256
  | C_EmbedField, "value" => str_upto 1024
  | C_Embed, "title" => optional_str_upto 256
  | C_Embed, "description" => optional_str_upto 2048
  | C_Embed, "url" => optional str
  | C_Embed, "timestamp" => optional datetime
  | C_Embed, "color" => optional int
  | C_Embed, "footer" => optional (cls C_EmbedFooter)
  | C_Embed, "image" => optional (cls C_EmbedImage)
  | C_Embed, "thumbnail" => optional (cls C_EmbedThumbnail)
  | C_Embed, "video" => optional (cls C_EmbedVideo)
  | C_Embed, "provider" => optional (cls C_EmbedProvider)
  | C_Embed, "author" => optional (cls C_EmbedAuthor)
  | C_Embed, "fields" => field_list
  | _, _ => fun _ => false
  end.

(** The attribute store in which property [k] holds [kw k]. *)
Definition store_of (keys : list string) (kw : string -> value) : gmap string value :=
  list_to_map ((fun k => ("_" ++ k, kw k)) <$> keys).

(** [__init__] assigns the properties in the order of [__items__], so the
    last one is the outermost insertion. *)
Definition store (c : pyclass) (kw : string -> value) : gmap string value :=
  store_of (reverse (items c)) kw.

(** The arguments [kw] with [v] for [attr]. *)
Definition with_arg (attr : string) (v : value) (kw : string -> value) : string -> value :=
  fun k => if String.eqb k attr then v else kw k.

(** The stores every setter of the class would let through. *)
Definition well_formed (c : pyclass) (slots : gmap string value) : Prop :=
  exists kw, slots = store c kw /\ forall k, k ∈ items c -> admits c k (kw k) = true.

(** An instance of [EmbedField]. *)
Definition is_field (v : value) : bool := isinstance v (cls C_EmbedField).

(** [guarded ok name f]: the setter [f] stores its argument under [name]
    when [ok] holds of it, and raises with the instance untouched when not. *)
Definition guarded (ok : value -> bool) (name : string) (f : value -> M unit) : Prop :=
  forall v s,
    if ok v then f v s = (<[name := v]> s, Returned tt)
    else exists e, f v s = (s, Raised e).

(** What the comprehension of [dict] yields on a store in which property
    [k] holds [kw k]. *)
Definition serialised (keys : list string) (kw : string -> value)
    (acc : gmap string value) : gmap string value :=
  foldl (fun m k => if is_None (kw k) then m else <[k := kw k]> m) acc keys.

Definition mapping_of (c : pyclass) (kw : string -> value) : gmap string value :=
  serialised (items c) kw ∅.

(** ** Vocabulary of the properties proved below *)

(** The attributes of [Embed] that hold an instance of another class. *)
Definition nested : list (string * pyclass) :=
  [("footer", C_EmbedFooter); ("image", C_EmbedImage);
   ("thumbnail", C_EmbedThumbnail); ("video", C_EmbedVideo);
   ("provider", C_EmbedProvider); ("author", C_EmbedAuthor)].

(** Serialisation that descends into the nested instances: each present
    nested instance appears as its own [dict], [fields] as the list of the
    [dict]s of its elements, an absent nested attribute not at all.  Stated
    here to be compared with what [dict] returns. *)
Definition serialises_nested (e : value) : Prop :=
  forall m, dict e = Returned m ->
    (forall k c x, (k, c) ∈ nested -> getattr e k = Returned x -> x ≠ VNone ->
       exists xm, dict x = Returned xm /\ m !! k = Some (VDict xm))
    /\ (forall fs, getattr e "fields" = Returned (VList fs) ->
          exists ms, Forall2 (fun f fm => dict f = Returned fm) fs ms
                     /\ m !! "fields" = Some (VList (VDict <$> ms)))
    /\ (forall k c, (k, c) ∈ nested -> getattr e k = Returned VNone -> m !! k = None).

(** The URLs the docstrings call supported ("only supports http(s) and
    attachments").  No code of the module consults a scheme. *)
Definition supported_scheme (url : string) : bool :=
  String.prefix "http://" url || String.prefix "https://" url
  || String.prefix "attachment://" url.

(** The attributes documented with that restriction that the properties
    below are about. *)
Definition url_attributes : list (pyclass * string) :=
  [(C_EmbedFooter, "icon_url"); (C_EmbedImage, "url"); (C_EmbedThumbnail, "url")].

Definition size_attributes : list string := ["height"; "width"].

(** A mapping from which [EmbedField.from_dict] builds a field. *)
Definition field_valid (d : value) : bool :=
  match d, EmbedField.from_dict d with
  | VDict _, Returned _ => true
  | _, _ => false
  end.

(** What the loop of the [fields] setter appends for an element: the
    element itself when it is a field, the field built from it when it is a
    mapping [EmbedField.from_dict] accepts. *)
Definition converted (x : value) : option value :=
  if is_field x then Some x
  else if isinstance x dict_t then
         match EmbedField.from_dict x with
         | Returned f => Some f
         | Raised _ => None
         end
       else None.

(** ** Instances used as examples *)

(** [EmbedFooter(text="t")] *)
Definition footer_t : value :=
  VObj C_EmbedFooter {[ "_text" := VStr "t"; "_icon_url" := VNone ]}.

(** [EmbedFooter(text="t", icon_url="ftp://example.com/icon.png")] *)
Definition footer_ftp : value :=
  VObj C_EmbedFooter {[ "_text" := VStr "t";
                        "_icon_url" := VStr "ftp://example.com/icon.png" ]}.

(** [EmbedField(name="n", value="v")] and [EmbedField(name="a", value="b")] *)
Definition field_nv : value :=
  VObj C_EmbedField {[ "_name" := VStr "n"; "_value" := VStr "v" ]}.

Definition field_ab : value :=
  VObj C_EmbedField {[ "_name" := VStr "a"; "_value" := VStr "b" ]}.

(** [{"name": "n", "value": "v"}] *)
Definition mapping_nv : value :=
  VDict {[ "name" := VStr "n"; "value" := VStr "v" ]}.

(** [EmbedVideo(url="https://example.com/v.mp4", height=480)] *)
Definition video_example : value :=
  VObj C_EmbedVideo {[ "_url" := VStr "https://example.com/v.mp4";
                       "_height" := VInt 480; "_width" := VNone ]}.

(** [EmbedVideo(height=-1, width=-1)] *)
Definition video_negative : value :=
  VObj C_EmbedVideo {[ "_url" := VNone; "_height" := VInt (-1);
                       "_width" := VInt (-1) ]}.

(** The attribute store of an [Embed] with every attribute [None] but
    [footer] and [fields]. *)
Definition embed_store (footer fields : value) : gmap string value :=
  {[ "_title" := VNone; "_description" := VNone; "_url" := VNone;
     "_timestamp" := VNone; "_color" := VNone; "_footer" := footer;
     "_image" := VNone; "_thumbnail" := VNone; "_video" := VNone;
     "_provider" := VNone; "_author" := VNone; "_fields" := fields ]}.

Definition embed_with (footer fields : value) : value :=
  VObj C_Embed (embed_store footer fields).

(** ** Color *)

Module Color.

Definition White : Z := 0xFFFFFF.
Definition Black : Z := 0x111111.
Definition Navy : Z := 0x001f3f.
Definition Blue : Z := 0x0074D9.
Definition Aqua : Z := 0x7FDBFF.
Definition Teal : Z := 0x39CCCC.
Definition Olive : Z := 0x3D9970.
Definition Green : Z := 0x2ECC40.
Definition Lime : Z := 0x01FF70.
Definition Yellow : Z := 0xFFDC00.
Definition Orange : Z := 0xFF851B.
Definition Red : Z := 0xFF4136.
Definition Maroon : Z := 0x85144b.
Definition Fuchsia : Z := 0xF012BE.
Definition Purple : Z := 0xB10DC9.
Definition Gray : Z := 0xAAAAAA.
Definition Silver : Z := 0xDDDDDD.

(** The class attributes, in the order of the class body. *)
Definition palette : list Z :=
  [White; Black; Navy; Blue; Aqua; Teal; Olive; Green; Lime; Yellow; Orange;
   Red; Maroon; Fuchsia; Purple; Gray; Silver].

End Color.

(** ** The tests of the setters as tables

    For each property, the type its setter tests with [isinstance] and the
    message of the [TypeError] it raises; for the properties with a length
    test, the bound and the message of the [ValueError]. *)

Definition declared : list (pyclass * string * pytype * string) :=
  [(C_EmbedFooter, "text", str, "text must be string");
   (C_EmbedFooter, "icon_url", str, "icon_url must be string");
   (C_EmbedImage, "url", str, "url must be string");
   (C_EmbedVideo, "url", str, "url must be string");
   (C_EmbedVideo, "height", int, "height must be int");
   (C_EmbedVideo, "width", int, "width must be int");
   (C_EmbedThumbnail, "url", str, "url must be string");
   (C_EmbedProvider, "name", str, "name must be string");
   (C_EmbedProvider, "url", str, "url must be string");
   (C_EmbedAuthor, "name", str, "name must be string");
   (C_EmbedAuthor, "url", str, "url must be string");
   (C_EmbedAuthor, "icon_url", str, "icon_url must be string");
   (C_EmbedField, "name", str, "name must be string");
   (C_EmbedField, "value", str, "value must be string");
   (C_Embed, "title", str, "title must be string");
   (C_Embed, "description", str, "description must be string");
   (C_Embed, "url", str, "url must be string");
   (C_Embed, "timestamp", datetime, "timestamp must be datetime");
   (C_Embed, "color", int, "color must be int");
   (C_Embed, "footer", cls C_EmbedFooter, "footer must be EmbedFooter object");
   (C_Embed, "image", cls C_EmbedImage, "image must be EmbedImage object");
   (C_Embed, "thumbnail", cls C_EmbedThumbnail, "thumbnail must be EmbedThumbnail object");
   (C_Embed, "video", cls C_EmbedVideo, "video must be EmbedVideo object");
   (C_Embed, "provider", cls C_EmbedProvider, "provider must be EmbedProvider object");
   (C_Embed, "author", cls C_EmbedAuthor, "author must be EmbedAuthor object");
   (C_Embed, "fields", list_t, "embeds must be list")].

Definition length_limits : list (pyclass * string * nat * string) :=
  [(C_EmbedFooter, "text", 2048, "text length must be up to 2048 characters");
   (C_EmbedAuthor, "name", 256, "name length must be up to 256 characters");
   (C_EmbedField, "name", 256, "name length must be up to 256 characters");
   (C_EmbedField, "value", 1024, "value length must be up to 1024 characters");
   (C_Embed, "title", 256, "title length must be up to 256 characters");
   (C_Embed, "description", 2048,
    "description length must be up to 2048 characters")].

(** The properties whose setter calls [len] on its argument without having
    tested that it is a string. *)
Definition unguarded_len : list (pyclass * string) :=
  [(C_EmbedFooter, "text"); (C_EmbedAuthor, "name");
   (C_EmbedField, "name"); (C_EmbedField, "value")].

(** The other properties, [Embed.fields] apart. *)
Definition clearable : list (pyclass * string) :=
  [(C_EmbedFooter, "icon_url"); (C_EmbedImage, "url"); (C_EmbedVideo, "url");
   (C_EmbedVideo, "height"); (C_EmbedVideo, "width"); (C_EmbedThumbnail, "url");
   (C_EmbedProvider, "name"); (C_EmbedProvider, "url"); (C_EmbedAuthor, "url");
   (C_EmbedAuthor, "icon_url"); (C_Embed, "title"); (C_Embed, "description");
   (C_Embed, "url"); (C_Embed, "timestamp"); (C_Embed, "color");
   (C_Embed, "footer"); (C_Embed, "image"); (C_Embed, "thumbnail");
   (C_Embed, "video"); (C_Embed, "provider"); (C_Embed, "author")].

(** A string of [n] characters. *)
Fixpoint pad (n : nat) : string :=
  match n with
  | 0 => ""
  | S n' => String.append "x" (pad n')
  end.

(** What the loop of the [fields] setter does with an element, spelled out:
    a field is taken as it is, a mapping is replaced by the field
    [EmbedField.from_dict] builds from it. *)
Definition taken_as (x f : value) : Prop :=
  (is_field x = true /\ f = x)
  \/ (isinstance x dict_t = true /\ EmbedField.from_dict x = Returned f).

(** The element the loop stops at, and the exception it raises there. *)
Definition refused_with (x : value) (e : exn) : Prop :=
  (is_field x = false /\ isinstance x dict_t = false
   /\ e = TypeError "fields items must be EmbedField or dict")
  \/ (isinstance x dict_t = true /\ EmbedField.from_dict x = Raised e).

(** ** Tactics *)

Ltac unfold_M :=
  unfold mbind, M_bind, mret, M_ret, when, raise, lift, setattr, getslot in *.

Ltac find_property :=
  apply list_elem_of_In; simpl; repeat (first [ left; reflexivity | right ]).

Ltac cases_elem_of H :=
  simpl in H; repeat (apply elem_of_cons in H as [->|H]); [..|by apply elem_of_nil in H].

Ltac cases_pair_of H :=
  repeat (apply elem_of_cons in H as [[= -> ->]|H]); [..|by apply elem_of_nil in H].

Ltac admits_cases :=
  let k := fresh "k" in
  let Hk := fresh "Hk" in
  intros k Hk; cases_elem_of Hk; assumption.

(** ** Setters *)

Lemma properties_items c : (properties c).*1 = items c.
Proof. by destruct c. Qed.

Lemma assoc_elem_of {A} k (a : A) l : assoc k l = Some a -> (k, a) ∈ l.
Proof.
  induction l as [|[k' a'] l IH]; simpl; [done|].
  destruct (String.eqb_spec k' k) as [->|_].
  - intros [= ->]. left.
  - intros H. right. by apply IH.
Qed.

Lemma items_setter c attr : attr ∈ items c -> is_Some (setter c attr).
Proof.
  rewrite <- properties_items. unfold setter.
  induction (properties c) as [|[k f] l IH]; simpl.
  - by intros ?%elem_of_nil.
  - destruct (String.eqb_spec k attr) as [->|Hne]; [by eexists|].
    intros [?|?]%elem_of_cons; [congruence | by apply IH].
Qed.

(** The three shapes of setter in the module. *)
Lemma typed_guarded t msg name f :
  (forall v, f v = (when (negb (is_None v) && negb (isinstance v t))
                      (raise (TypeError msg));;
                    setattr name v)) ->
  guarded (optional t) name f.
Proof.
  intros Hf v s. rewrite Hf. unfold optional. unfold_M.
  destruct (is_None v), (isinstance v t); simpl; try done; by eexists.
Qed.

Lemma checked_guarded n msg1 msg2 name f :
  (forall v, f v = (when (negb (is_None v) && negb (isinstance v str))
                      (raise (TypeError msg1));;
                    k ← lift (len v);
                    when (bool_decide (n < k)) (raise (ValueError msg2));;
                    setattr name v)) ->
  guarded (str_upto n) name f.
Proof.
  intros Hf v s. rewrite Hf. unfold_M.
  destruct v; simpl; try by eexists.
  case_bool_decide; simpl; [by eexists | done].
Qed.

Lemma optional_checked_guarded n msg1 msg2 name f :
  (forall v, f v = (when (negb (is_None v) && negb (isinstance v str))
                      (raise (TypeError msg1));;
                    too_long ← (if isinstance v str
                                then k ← lift (len v); mret (bool_decide (n < k))
                                else mret false);
                    when too_long (raise (ValueError msg2));;
                    setattr name v)) ->
  guarded (optional_str_upto n) name f.
Proof.
  intros Hf v s. rewrite Hf. unfold optional_str_upto. unfold_M.
  destruct v; simpl; try done; try by eexists.
  case_bool_decide; simpl; [by eexists | done].
Qed.

(** Every setter but [Embed.fields] is guarded by the test [admits] gives
    for it. *)
Lemma setter_guarded c attr f :
  (attr, f) ∈ properties c -> (c, attr) ≠ (C_Embed, "fields") ->
  guarded (admits c attr) ("_" ++ attr) f.
Proof.
  intros Hin Hne.
  destruct c; simpl in Hin;
    repeat (apply elem_of_cons in Hin as [[= -> ->]|Hin]);
    try (by apply elem_of_nil in Hin); try done;
    first [ eapply typed_guarded; reflexivity
          | eapply checked_guarded; reflexivity
          | eapply optional_checked_guarded; reflexivity ].
Qed.

Lemma setter_accepts c attr f v s :
  (attr, f) ∈ properties c -> (c, attr) ≠ (C_Embed, "fields") ->
  admits c attr v = true ->
  f v s = (<["_" ++ attr := v]> s, Returned tt).
Proof.
  intros Hin Hne Hok. pose proof (setter_guarded c attr f Hin Hne v s) as H.
  by rewrite Hok in H.
Qed.

Lemma setter_rejects c attr f v s :
  (attr, f) ∈ properties c -> (c, attr) ≠ (C_Embed, "fields") ->
  admits c attr v = false ->
  exists e, f v s = (s, Raised e).
Proof.
  intros Hin Hne Hok. pose proof (setter_guarded c attr f Hin Hne v s) as H.
  by rewrite Hok in H.
Qed.

Lemma setter_returns c attr f v s s' :
  (attr, f) ∈ properties c -> (c, attr) ≠ (C_Embed, "fields") ->
  f v s = (s', Returned tt) ->
  s' = <["_" ++ attr := v]> s /\ admits c attr v = true.
Proof.
  intros Hin Hne Hrun. destruct (admits c attr v) eqn:Hok.
  - rewrite (setter_accepts c attr f v s Hin Hne Hok) in Hrun. by inversion Hrun.
  - destruct (setter_rejects c attr f v s Hin Hne Hok) as [e He]. congruence.
Qed.

(** A setter other than [Embed.fields] that raises has not touched the
    instance. *)
Lemma setter_raises_unchanged c attr f v s s' e :
  (attr, f) ∈ properties c -> (c, attr) ≠ (C_Embed, "fields") ->
  f v s = (s', Raised e) -> s' = s.
Proof.
  intros Hin Hne Hrun. destruct (admits c attr v) eqn:Hok.
  - rewrite (setter_accepts c attr f v s Hin Hne Hok) in Hrun. by inversion Hrun.
  - destruct (setter_rejects c attr f v s Hin Hne Hok) as [e' He]. congruence.
Qed.

Lemma bind_returned {A B} (m : M A) (k : A -> M B) s s' b :
  (m ≫= k) s = (s', Returned b) ->
  exists s1 a, m s = (s1, Returned a) /\ k a s1 = (s', Returned b).
Proof.
  unfold mbind, M_bind. destruct (m s) as [s1 [a|e]]; [|done]. eauto.
Qed.

Lemma new_returned c m x :
  new c m = Returned x -> exists s, x = VObj c s /\ m ∅ = (s, Returned tt).
Proof.
  unfold new. destruct (m ∅) as [s [[]|e]]; [|done]. intros [= <-]. eauto.
Qed.

(** ** The [fields] setter *)

Lemma from_dict_is_field d f :
  EmbedField.from_dict d = Returned f -> is_field f = true.
Proof.
  unfold EmbedField.from_dict. destruct (kwargs _ d) as [kw|e]; [simpl|done].
  intros (s & -> & _)%new_returned. done.
Qed.

Lemma append_fields s acc x :
  s !! "_fields" = Some (VList acc) ->
  append "_fields" x s = (<["_fields" := VList (acc ++ [x])]> s, Returned tt).
Proof. intros H. unfold append. unfold_M. by rewrite H. Qed.

(** The loop of the setter extends the list it started from by instances of
    [EmbedField] only, one for each element it got through, whether it runs
    to the end or raises on the way. *)
Lemma fields_loop l s acc :
  s !! "_fields" = Some (VList acc) ->
  exists pre r,
    for_each l Embed.fields_item s = (<["_fields" := VList (acc ++ pre)]> s, r)
    /\ forallb is_field pre = true /\ length pre <= length l.
Proof.
  revert s acc. induction l as [|x l IH]; intros s acc Hs.
  - exists [], (Returned tt). rewrite app_nil_r, insert_id by done. done.
  - simpl. unfold mbind at 1, M_bind at 1.
    assert (Hstep : (exists e, Embed.fields_item x s = (s, Raised e)) \/
                    (exists f, is_field f = true /\
                       Embed.fields_item x s
                       = (<["_fields" := VList (acc ++ [f])]> s, Returned tt))).
    { unfold Embed.fields_item. fold (is_field x).
      destruct (is_field x) eqn:Hx.
      - right. exists x. by rewrite (append_fields s acc x Hs).
      - destruct (isinstance x dict_t); [|left; by eexists].
        unfold mbind, M_bind, lift.
        destruct (EmbedField.from_dict x) as [f|e] eqn:Hf; [|left; by eexists].
        right. exists f. rewrite (append_fields s acc f Hs).
        split; [|done]. by eapply from_dict_is_field. }
    destruct Hstep as [[e ->]|(f & Hf & ->)].
    + exists [], (Raised e). rewrite app_nil_r, insert_id by done.
      split; [done|]. split; [done | simpl; lia].
    + destruct (IH (<["_fields" := VList (acc ++ [f])]> s) (acc ++ [f])%list)
        as (pre & r & Hrun & Hpre & Hlen); [by rewrite lookup_insert_eq|].
      exists (f :: pre), r. rewrite Hrun, insert_insert_eq, <- app_assoc. simpl.
      rewrite Hf, Hpre. split; [done|]. split; [done | lia].
Qed.

(** Whatever [Embed.fields] is assigned, the setter either raises at once,
    the instance left as it was, or the instance holds a list of at most 25
    instances of [EmbedField] afterwards. *)
Lemma fields_setter_store v s :
  (exists e, Embed.fields_setter v s = (s, Raised e)) \/
  (exists l r, Embed.fields_setter v s = (<["_fields" := VList l]> s, r)
               /\ field_list (VList l) = true).
Proof.
  unfold Embed.fields_setter. destruct (is_None v) eqn:Hv.
  { right. by exists [], (Returned tt). }
  destruct (isinstance v list_t) eqn:Hl; [|left; by eexists].
  destruct v; try done. unfold_M. simpl.
  case_bool_decide as Hlen; [left; by eexists|]. right.
  destruct (fields_loop l (<["_fields" := VList []]> s) [])
    as (pre & r & Hrun & Hpre & Hle); [by rewrite lookup_insert_eq|].
  exists pre, r. unfold mret, M_ret. rewrite Hrun, insert_insert_eq. simpl.
  split; [done|]. unfold is_field in Hpre. rewrite Hpre. simpl.
  apply negb_true_iff, bool_decide_eq_false. lia.
Qed.

(** ** Well-formed stores *)

Lemma underscore_inj k k' : "_" ++ k = "_" ++ k' -> k = k'.
Proof. intros H. cbv beta iota fix delta [String.append] in H. by injection H. Qed.

Lemma store_of_cons k keys kw :
  store_of (k :: keys) kw = <["_" ++ k := kw k]> (store_of keys kw).
Proof. done. Qed.

Lemma store_of_ext keys kw kw' :
  (forall k, k ∈ keys -> kw k = kw' k) -> store_of keys kw = store_of keys kw'.
Proof.
  intros H. unfold store_of. f_equal. apply list_fmap_ext.
  intros i k Hk. rewrite (H k); [done|]. by eapply list_elem_of_lookup_2.
Qed.

Lemma with_arg_other attr v kw keys :
  attr ∉ keys -> store_of keys (with_arg attr v kw) = store_of keys kw.
Proof.
  intros Hnot. apply store_of_ext. intros k Hk. unfold with_arg.
  destruct (String.eqb_spec k attr) as [->|]; done.
Qed.

Lemma store_of_insert keys attr v kw :
  attr ∈ keys ->
  <["_" ++ attr := v]> (store_of keys kw) = store_of keys (with_arg attr v kw).
Proof.
  induction keys as [|k keys IH]; [by intros ?%elem_of_nil|].
  intros Hin. rewrite !store_of_cons. unfold with_arg at 1.
  destruct (String.eqb_spec k attr) as [->|Hne].
  - rewrite insert_insert_eq. destruct (decide (attr ∈ keys)) as [Hin'|Hnot].
    + rewrite <- IH by done. symmetry. apply insert_insert_eq.
    + by rewrite with_arg_other.
  - apply elem_of_cons in Hin as [->|Hin]; [done|].
    rewrite <- IH by done. apply insert_insert_ne. by intros ?%underscore_inj.
Qed.

Lemma lookup_store_of keys k kw :
  k ∈ keys -> store_of keys kw !! ("_" ++ k) = Some (kw k).
Proof.
  induction keys as [|k' keys IH]; [by intros ?%elem_of_nil|].
  intros Hin. rewrite store_of_cons.
  destruct (decide (k' = k)) as [->|Hne]; [by rewrite lookup_insert_eq|].
  apply elem_of_cons in Hin as [->|Hin]; [done|].
  rewrite lookup_insert_ne; [by apply IH | by intros ?%underscore_inj].
Qed.

Lemma store_insert c attr v kw :
  attr ∈ items c -> <["_" ++ attr := v]> (store c kw) = store c (with_arg attr v kw).
Proof. intros H. apply store_of_insert. by apply elem_of_reverse. Qed.

Lemma lookup_store c k kw :
  k ∈ items c -> store c kw !! ("_" ++ k) = Some (kw k).
Proof. intros H. apply lookup_store_of. by apply elem_of_reverse. Qed.

Lemma store_ext c kw kw' :
  (forall k, k ∈ items c -> kw k = kw' k) -> store c kw = store c kw'.
Proof. intros H. apply store_of_ext. intros k Hk. by apply H, elem_of_reverse. Qed.

Lemma well_formed_insert c attr v s :
  well_formed c s -> attr ∈ items c -> admits c attr v = true ->
  well_formed c (<["_" ++ attr := v]> s).
Proof.
  intros (kw & -> & Hkw) Hin Hok. exists (with_arg attr v kw). split.
  - by apply store_insert.
  - intros k Hk. unfold with_arg.
    destruct (String.eqb_spec k attr) as [->|Hne]; [done | by apply Hkw].
Qed.

(** ** Construction and assignment keep the store well formed *)

Ltac invert_init H :=
  repeat match type of H with
    | mbind ?k ?m ?s = _ => apply (bind_returned m k s) in H as (? & [] & ? & H)
    end.

Ltac use_setters c :=
  repeat match goal with
    | H : ?f (?kw ?k) ?s = (_, Returned tt) |- _ =>
        apply (setter_returns c k f) in H as [-> ?]; [|find_property|done]
    end.

Ltac accept_setters c kw H :=
  repeat match goal with
    | |- context [?f (kw ?k) ?s] =>
        rewrite (setter_accepts c k f (kw k) s)
          by first [find_property | done | apply H; find_property ]
    end.

Lemma init_returned c kw s :
  init c kw ∅ = (s, Returned tt) -> well_formed c s.
Proof.
  intros H. destruct c; unfold init in H;
    unfold EmbedFooter.__init__, EmbedImage.__init__, EmbedVideo.__init__,
      EmbedThumbnail.__init__, EmbedProvider.__init__, EmbedAuthor.__init__,
      EmbedField.__init__, Embed.__init__ in H;
    invert_init H.
  1-7: match goal with |- well_formed ?c _ => use_setters c end.
  1-7:   (exists kw; split; [reflexivity | admits_cases]).
  use_setters C_Embed.
  match type of H with
  | Embed.fields_setter ?v ?st = _ =>
      destruct (fields_setter_store v st) as [[e He]|(l & r & Hl & Hok)];
      [congruence|rewrite Hl in H]
  end.
  injection H as <- _.
  exists (with_arg "fields" (VList l) kw). split; [reflexivity|].
  intros k Hk; cases_elem_of Hk; assumption.
Qed.

Lemma setter_fields f : setter C_Embed "fields" = Some f -> f = Embed.fields_setter.
Proof. unfold setter; simpl; by intros [= <-]. Qed.

Lemma reachable_well_formed c x :
  reachable c x -> exists s, x = VObj c s /\ well_formed c s.
Proof.
  induction 1 as [kw x H | x attr v Hx IH Hattr].
  - apply new_returned in H as (s & -> & H). exists s. split; [done|].
    by eapply init_returned.
  - destruct IH as (s & -> & Hwf). unfold assign.
    destruct (items_setter c attr Hattr) as [f Hf]. rewrite Hf.
    pose proof (assoc_elem_of _ _ _ Hf) as Hin.
    destruct (decide ((c, attr) = (C_Embed, "fields"))) as [[= -> ->]|Hne].
    + apply setter_fields in Hf as ->.
      destruct (fields_setter_store v s) as [[e ->]|(l & r & -> & Hok)]; simpl.
      * by exists s.
      * eexists. split; [done|]. by apply (well_formed_insert C_Embed "fields").
    + destruct (admits c attr v) eqn:Hok.
      * rewrite (setter_accepts c attr f v s Hin Hne Hok). simpl.
        eexists. split; [done|]. by apply well_formed_insert.
      * destruct (setter_rejects c attr f v s Hin Hne Hok) as [e ->]. by exists s.
Qed.

(** ** Serialisation and reconstruction *)

Lemma comprehension_store keys kw s acc :
  (forall k, k ∈ keys -> s !! ("_" ++ k) = Some (kw k)) ->
  BaseSerializable.comprehension keys acc s = (s, Returned (serialised keys kw acc)).
Proof.
  revert acc. induction keys as [|k keys IH]; intros acc H; [done|].
  simpl. unfold BaseSerializable.property. unfold_M.
  rewrite (H k) by left. destruct (is_None (kw k)); simpl.
  - apply IH. intros k' Hk'. apply H. by right.
  - rewrite (H k) by left. apply IH. intros k' Hk'. apply H. by right.
Qed.

Lemma lookup_serialised keys kw acc k :
  serialised keys kw acc !! k
  = if decide (k ∈ keys /\ is_None (kw k) = false) then Some (kw k) else acc !! k.
Proof.
  revert acc. induction keys as [|k0 keys IH]; intros acc.
  - rewrite decide_False; [done | by intros [?%elem_of_nil _]].
  - change (serialised (k0 :: keys) kw acc)
      with (serialised keys kw (if is_None (kw k0) then acc else <[k0 := kw k0]> acc)).
    rewrite IH.
    destruct (decide (k ∈ keys /\ is_None (kw k) = false)) as [[Hin Hk]|Hnot].
    + rewrite decide_True; [done|]. split; [by right|done].
    + destruct (decide (k0 = k)) as [->|Hne].
      * destruct (is_None (kw k)) eqn:Hk.
        -- rewrite decide_False; [done|]. by intros [_ ?].
        -- rewrite lookup_insert_eq. rewrite decide_True; [done|]. split; [left|done].
      * assert (Hiff : ~ (k ∈ k0 :: keys /\ is_None (kw k) = false)).
        { intros [[->|?]%elem_of_cons ?]; [done|]. by apply Hnot. }
        rewrite (decide_False _ _ Hiff).
        destruct (is_None (kw k0)); [done|]. by rewrite lookup_insert_ne.
Qed.

Lemma dict_store c kw : dict (VObj c (store c kw)) = Returned (mapping_of c kw).
Proof.
  unfold dict, BaseSerializable.dict, mapping_of.
  rewrite (comprehension_store (items c) kw); [done|].
  intros k Hk. by apply lookup_store.
Qed.

Lemma lookup_mapping_of c kw k :
  mapping_of c kw !! k
  = if decide (k ∈ items c /\ is_None (kw k) = false) then Some (kw k) else None.
Proof. unfold mapping_of. by rewrite lookup_serialised, lookup_empty. Qed.

Lemma from_dict_kwargs c obj :
  from_dict c obj = kw ← kwargs (items c) obj; construct c kw.
Proof. by destruct c. Qed.

Lemma kwargs_known params d :
  (forall k, is_Some (d !! k) -> k ∈ params) ->
  kwargs params (VDict d) = Returned (fun k => default VNone (d !! k)).
Proof.
  intros H. unfold kwargs.
  destruct (filter _ _) as [|k l] eqn:Hf; [done|]. exfalso.
  assert (Hk : k ∈ filter (fun k => k ∉ params) (map_to_list d).*1)
    by (rewrite Hf; left).
  apply list_elem_of_filter in Hk as [Hnot Hk]. apply Hnot, H.
  apply list_elem_of_fmap in Hk as ([k' v] & -> & Hkv).
  apply elem_of_map_to_list in Hkv. by eexists.
Qed.

Lemma construct_store c kw :
  leaf c = true -> (forall k, k ∈ items c -> admits c k (kw k) = true) ->
  construct c kw = Returned (VObj c (store c kw)).
Proof.
  intros Hleaf H. destruct c; try done; unfold construct, new, init;
    unfold EmbedFooter.__init__, EmbedImage.__init__, EmbedVideo.__init__,
      EmbedThumbnail.__init__, EmbedProvider.__init__, EmbedAuthor.__init__,
      EmbedField.__init__; unfold mbind, M_bind.
  all: match goal with |- context [VObj ?c _] => accept_setters c kw H end.
  all: reflexivity.
Qed.

Lemma is_None_true v : is_None v = true -> v = VNone.
Proof. by destruct v. Qed.

(** ** Reading attributes of a well-formed instance *)

Lemma getattr_store c kw k :
  k ∈ items c -> getattr (VObj c (store c kw)) k = Returned (kw k).
Proof.
  intros Hk. unfold getattr, BaseSerializable.property, getslot.
  by rewrite lookup_store.
Qed.

Lemma optional_cls c v :
  optional (cls c) v = true -> v = VNone \/ exists s, v = VObj c s.
Proof.
  destruct v; try done; [by left|]. unfold optional. simpl.
  intros ->%bool_decide_eq_true. right. by eexists.
Qed.

Lemma is_field_not_dict f : is_field f = true -> isinstance f dict_t = false.
Proof. by destruct f. Qed.

Lemma embed_fields_slot kw :
  (forall k, k ∈ items C_Embed -> admits C_Embed k (kw k) = true) ->
  exists fs, kw "fields" = VList fs
             /\ Forall (fun f => is_field f = true) fs /\ length fs <= 25.
Proof.
  intros Hkw. assert (Hin : "fields" ∈ items C_Embed) by find_property.
  pose proof (Hkw "fields" Hin) as H.
  change (field_list (kw "fields") = true) in H.
  destruct (kw "fields") as [| | | | |fs| |]; try done.
  exists fs. split; [done|]. simpl in H. apply andb_true_iff in H as [H Hlen].
  split.
  - apply Forall_forall. intros f Hf. rewrite forallb_forall in H.
    by apply H, list_elem_of_In.
  - apply negb_true_iff, bool_decide_eq_false in Hlen. lia.
Qed.

Lemma construct_leaf c kw x :
  leaf c = true -> construct c kw = Returned x ->
  x = VObj c (store c kw) /\ forall k, k ∈ items c -> admits c k (kw k) = true.
Proof.
  intros Hleaf (s & -> & H)%new_returned.
  destruct c; try done; unfold init in H;
    unfold EmbedFooter.__init__, EmbedImage.__init__, EmbedVideo.__init__,
      EmbedThumbnail.__init__, EmbedProvider.__init__, EmbedAuthor.__init__,
      EmbedField.__init__ in H;
    invert_init H.
  all: match goal with |- VObj ?c _ = _ /\ _ => use_setters c end.
  all: split; [reflexivity | admits_cases].
Qed.

Lemma with_arg_same attr v kw : with_arg attr v kw attr = v.
Proof. unfold with_arg. by rewrite String.eqb_refl. Qed.

Lemma assign_accepts c kw attr v :
  attr ∈ items c -> (c, attr) ≠ (C_Embed, "fields") -> admits c attr v = true ->
  assign (VObj c (store c kw)) attr v
  = (VObj c (store c (with_arg attr v kw)), Returned tt).
Proof.
  intros Hattr Hne Hok. unfold assign.
  destruct (items_setter c attr Hattr) as [f Hf]. rewrite Hf.
  pose proof (assoc_elem_of _ _ _ Hf) as Hin.
  by rewrite (setter_accepts c attr f v _ Hin Hne Hok), store_insert.
Qed.

(** Every assignment that raises, [Embed.fields] apart, leaves the instance
    as it was. *)
Lemma assign_raises_unchanged c s attr v x e :
  attr ∈ items c -> (c, attr) ≠ (C_Embed, "fields") ->
  assign (VObj c s) attr v = (x, Raised e) -> x = VObj c s.
Proof.
  intros Hattr Hne. unfold assign.
  destruct (items_setter c attr Hattr) as [f Hf]. rewrite Hf.
  pose proof (assoc_elem_of _ _ _ Hf) as Hin.
  destruct (f v s) as [s' r] eqn:Hrun. intros [= <- ->].
  by rewrite (setter_raises_unchanged c attr f v s s' e Hin Hne Hrun).
Qed.

(** Assigning [None] to an attribute whose setter lets [None] through
    clears it, and [dict] then leaves it out. *)
Lemma assign_None_clears c attr x :
  attr ∈ items c -> (c, attr) ≠ (C_Embed, "fields") ->
  admits c attr VNone = true -> reachable c x ->
  exists x', assign x attr VNone = (x', Returned tt)
             /\ getattr x' attr = Returned VNone
             /\ exists m, dict x' = Returned m /\ m !! attr = None.
Proof.
  intros Hattr Hne Hok (s & -> & kw & -> & Hkw)%reachable_well_formed.
  eexists. rewrite assign_accepts by done. split; [done|].
  rewrite getattr_store, with_arg_same by done. split; [done|].
  exists (mapping_of c (with_arg attr VNone kw)). split; [apply dict_store|].
  rewrite lookup_mapping_of, with_arg_same. rewrite decide_False; [done|].
  by intros [_ ?].
Qed.

(** [None] assigned to [Embed.fields] is stored as the empty list, which
    [dict] keeps. *)
Lemma assign_None_fields e :
  reachable C_Embed e ->
  exists e', assign e "fields" VNone = (e', Returned tt)
             /\ getattr e' "fields" = Returned (VList [])
             /\ exists m, dict e' = Returned m /\ m !! "fields" = Some (VList []).
Proof.
  intros (s & -> & kw & -> & Hkw)%reachable_well_formed.
  assert (Hin : "fields" ∈ items C_Embed) by find_property.
  exists (VObj C_Embed (store C_Embed (with_arg "fields" (VList []) kw))).
  split.
  - change (assign (VObj C_Embed (store C_Embed kw)) "fields" VNone)
      with (VObj C_Embed (<["_" ++ "fields" := VList []]> (store C_Embed kw)),
            @Returned unit tt).
    by rewrite store_insert.
  - rewrite getattr_store, with_arg_same by done. split; [done|].
    exists (mapping_of C_Embed (with_arg "fields" (VList []) kw)).
    split; [apply dict_store|].
    rewrite lookup_mapping_of, with_arg_same. by rewrite decide_True.
Qed.

(** An attribute of a leaf class whose setter only tests the type [t]
    holds [None] or an instance of [t], and takes any instance of [t], by
    assignment and by construction. *)
Lemma typed_attribute c attr t v x :
  leaf c = true -> attr ∈ items c -> admits c attr = optional t ->
  isinstance v t = true -> reachable c x ->
  (exists w, getattr x attr = Returned w /\ optional t w = true)
  /\ (exists x', assign x attr v = (x', Returned tt)
                 /\ getattr x' attr = Returned v)
  /\ (forall kw x0, construct c kw = Returned x0 ->
        exists x', construct c (with_arg attr v kw) = Returned x'
                   /\ getattr x' attr = Returned v).
Proof.
  intros Hleaf Hattr Hadm Hv (s & -> & kw & -> & Hkw)%reachable_well_formed.
  assert (Hok : admits c attr v = true).
  { rewrite Hadm. unfold optional. rewrite Hv. by destruct (is_None v). }
  assert (Hne : (c, attr) ≠ (C_Embed, "fields")) by (intros [= -> _]; done).
  split; [|split].
  - exists (kw attr). rewrite getattr_store by done. split; [done|].
    rewrite <- Hadm. by apply Hkw.
  - eexists. rewrite assign_accepts by done. split; [done|].
    by rewrite getattr_store, with_arg_same.
  - intros kw0 x0 [_ Hkw0]%construct_leaf; [|done].
    eexists. rewrite construct_store; [split; [done|]|done|].
    + by rewrite getattr_store, with_arg_same.
    + intros k Hk. unfold with_arg.
      destruct (String.eqb_spec k attr) as [->|_]; [done | by apply Hkw0].
Qed.

(** ** The [fields] setter on the lists it accepts and on those it does not *)

Lemma fields_item_converted x f s acc :
  converted x = Some f -> s !! "_fields" = Some (VList acc) ->
  Embed.fields_item x s = (<["_fields" := VList (acc ++ [f])]> s, Returned tt).
Proof.
  unfold converted, Embed.fields_item. fold (is_field x). intros Hx Hs.
  destruct (is_field x).
  - injection Hx as ->. by apply append_fields.
  - destruct (isinstance x dict_t); [|done]. unfold mbind, M_bind, lift.
    destruct (EmbedField.from_dict x) as [f'|]; [|done]. injection Hx as ->.
    by apply append_fields.
Qed.

Lemma fields_loop_converted l fs s acc :
  Forall2 (fun x f => converted x = Some f) l fs ->
  s !! "_fields" = Some (VList acc) ->
  for_each l Embed.fields_item s = (<["_fields" := VList (acc ++ fs)]> s, Returned tt).
Proof.
  intros H. revert s acc. induction H as [|x f l fs Hx _ IH]; intros s acc Hs.
  - by rewrite app_nil_r, insert_id.
  - simpl. unfold mbind at 1, M_bind at 1.
    rewrite (fields_item_converted x f s acc Hx Hs).
    rewrite (IH _ (acc ++ [f])%list) by (by rewrite lookup_insert_eq).
    by rewrite insert_insert_eq, <- app_assoc.
Qed.

Lemma fields_loop_stops pre fs bad rest s acc :
  Forall2 (fun x f => converted x = Some f) pre fs ->
  is_field bad = false -> isinstance bad dict_t = false ->
  s !! "_fields" = Some (VList acc) ->
  for_each (pre ++ bad :: rest) Embed.fields_item s
  = (<["_fields" := VList (acc ++ fs)]> s,
     Raised (TypeError "fields items must be EmbedField or dict")).
Proof.
  intros H Hbad Hdict. revert s acc. induction H as [|x f l fs Hx _ IH]; intros s acc Hs.
  - simpl. unfold mbind, M_bind, Embed.fields_item. fold (is_field bad).
    rewrite Hbad, Hdict. unfold raise. by rewrite app_nil_r, insert_id.
  - simpl. unfold mbind at 1, M_bind at 1.
    rewrite (fields_item_converted x f s acc Hx Hs).
    rewrite (IH _ (acc ++ [f])%list) by (by rewrite lookup_insert_eq).
    by rewrite insert_insert_eq, <- app_assoc.
Qed.

Lemma fields_setter_list l s :
  Embed.fields_setter (VList l) s
  = if bool_decide (25 < length l)
    then (s, Raised (ValueError "embed can contain up to 25 field objects"))
    else for_each l Embed.fields_item (<["_fields" := VList []]> s).
Proof.
  unfold Embed.fields_setter. unfold_M. simpl. by case_bool_decide.
Qed.

(** The setter on a list of at most 25 fields and mappings of fields, ... *)
Lemma fields_setter_converted l fs s :
  length l <= 25 -> Forall2 (fun x f => converted x = Some f) l fs ->
  Embed.fields_setter (VList l) s = (<["_fields" := VList fs]> s, Returned tt).
Proof.
  intros Hlen H. rewrite fields_setter_list, bool_decide_eq_false_2 by lia.
  rewrite (fields_loop_converted l fs _ []) by (by rewrite ?lookup_insert_eq).
  by rewrite insert_insert_eq.
Qed.

(** ... and on a list with an element that is neither: when the setter
    raises, the fields before that element have replaced the previous
    list. *)
Lemma fields_setter_stops pre fs bad rest s :
  length (pre ++ bad :: rest) <= 25 ->
  Forall2 (fun x f => converted x = Some f) pre fs ->
  is_field bad = false -> isinstance bad dict_t = false ->
  Embed.fields_setter (VList (pre ++ bad :: rest)) s
  = (<["_fields" := VList fs]> s,
     Raised (TypeError "fields items must be EmbedField or dict")).
Proof.
  intros Hlen H Hbad Hdict. rewrite fields_setter_list, bool_decide_eq_false_2 by lia.
  rewrite (fields_loop_stops pre fs bad rest _ []) by (by rewrite ?lookup_insert_eq).
  by rewrite insert_insert_eq.
Qed.

Lemma field_valid_converted l :
  Forall (fun d => field_valid d = true) l ->
  exists fs, Forall2 (fun d f => EmbedField.from_dict d = Returned f) l fs
             /\ Forall2 (fun x f => converted x = Some f) l fs.
Proof.
  induction 1 as [|d l Hd _ (fs & H1 & H2)]; [by exists []|].
  unfold field_valid in Hd. destruct d; try done.
  destruct (EmbedField.from_dict (VDict d)) as [f|] eqn:Hf; [|done].
  exists (f :: fs). split; constructor; try done.
  unfold converted. simpl. by rewrite Hf.
Qed.

(** * The properties *)

(** ** Serialisation of an [Embed] *)

(** C1, as stated, fails: [dict] does not descend.  For
    [Embed(footer=EmbedFooter(text="t"), fields=[EmbedField("n", "v")])] the
    entry under [footer] is the [EmbedFooter] instance and the entry under
    [fields] the list of [EmbedField] instances, not their mappings. *)
Lemma embed_dict_not_recursive :
  construct C_EmbedFooter (args [("text", VStr "t")]) = Returned footer_t
  /\ construct C_EmbedField (args [("name", VStr "n"); ("value", VStr "v")])
     = Returned field_nv
  /\ construct C_Embed (args [("footer", footer_t); ("fields", VList [field_nv])])
     = Returned (embed_with footer_t (VList [field_nv]))
  /\ dict (embed_with footer_t (VList [field_nv]))
     = Returned {[ "footer" := footer_t; "fields" := VList [field_nv] ]}
  /\ dict footer_t = Returned {[ "text" := VStr "t" ]}
  /\ ~ serialises_nested (embed_with footer_t (VList [field_nv])).
Proof.
  assert (Hd : dict (embed_with footer_t (VList [field_nv]))
               = Returned {[ "footer" := footer_t; "fields" := VList [field_nv] ]})
    by (vm_compute; reflexivity).
  split; [vm_compute; reflexivity|]. split; [vm_compute; reflexivity|].
  split; [vm_compute; reflexivity|]. split; [exact Hd|].
  split; [vm_compute; reflexivity|].
  intros H. destruct (H _ Hd) as (Hnested & _ & _).
  destruct (Hnested "footer" C_EmbedFooter footer_t) as (xm & _ & Hm).
  - unfold nested. left.
  - vm_compute; reflexivity.
  - done.
  - vm_compute in Hm. discriminate Hm.
Qed.

(** C1 (amended): for every [Embed] the program can hold, [dict] returns a
    mapping in which each present nested attribute (footer, image,
    thumbnail, video, provider, author) appears as the stored instance
    itself, [fields] appears as the stored list of [EmbedField] instances
    themselves, and an absent nested attribute is left out. *)
Theorem embed_dict_keeps_instances (e : value) :
  reachable C_Embed e ->
  exists m, dict e = Returned m
    /\ (forall k c, (k, c) ∈ nested ->
          (getattr e k = Returned VNone /\ m !! k = None)
          \/ (exists s, getattr e k = Returned (VObj c s)
                        /\ m !! k = Some (VObj c s)))
    /\ (exists fs, getattr e "fields" = Returned (VList fs)
                   /\ m !! "fields" = Some (VList fs)
                   /\ Forall (fun f => is_field f = true) fs).
Proof.
  intros (s & -> & kw & -> & Hkw)%reachable_well_formed.
  exists (mapping_of C_Embed kw). split; [apply dict_store|]. split.
  - intros k c Hk. unfold nested in Hk.
    assert (Hin : k ∈ items C_Embed) by (cases_pair_of Hk; find_property).
    rewrite getattr_store, lookup_mapping_of by done.
    assert (Hopt : optional (cls c) (kw k) = true).
    { pose proof (Hkw k Hin) as H. cases_pair_of Hk; exact H. }
    apply optional_cls in Hopt as [->|[s ->]].
    + left. split; [done|]. rewrite decide_False; [done | by intros [_ ?]].
    + right. exists s. split; [done|]. by rewrite decide_True.
  - assert (Hin : "fields" ∈ items C_Embed) by find_property.
    destruct (embed_fields_slot kw Hkw) as (fs & Hfs & Hall & _).
    exists fs. rewrite getattr_store, lookup_mapping_of, Hfs by done.
    split; [done|]. split; [by rewrite decide_True | done].
Qed.

(** The amended C1 at
    [Embed(footer=EmbedFooter(text="t"), fields=[EmbedField("n", "v")])]. *)
Lemma embed_dict_keeps_instances_witness :
  reachable C_Embed (embed_with footer_t (VList [field_nv]))
  /\ exists m, dict (embed_with footer_t (VList [field_nv])) = Returned m
       /\ (forall k c, (k, c) ∈ nested ->
             (getattr (embed_with footer_t (VList [field_nv])) k = Returned VNone
              /\ m !! k = None)
             \/ (exists s,
                   getattr (embed_with footer_t (VList [field_nv])) k
                   = Returned (VObj c s)
                   /\ m !! k = Some (VObj c s)))
       /\ (exists fs,
             getattr (embed_with footer_t (VList [field_nv])) "fields"
             = Returned (VList fs)
             /\ m !! "fields" = Some (VList fs)
             /\ Forall (fun f => is_field f = true) fs).
Proof.
  assert (H : reachable C_Embed (embed_with footer_t (VList [field_nv]))).
  { apply (reachable_new C_Embed
             (args [("footer", footer_t); ("fields", VList [field_nv])])).
    vm_compute. reflexivity. }
  split; [exact H|]. exact (embed_dict_keeps_instances _ H).
Defined.

(** C8: [Embed()] is constructed, and its [dict] is the mapping with the
    single key [fields], bound to the empty list. *)
Theorem empty_embed_dict :
  construct C_Embed (args []) = Returned (embed_with VNone (VList []))
  /\ dict (embed_with VNone (VList [])) = Returned {[ "fields" := VList [] ]}.
Proof. split; vm_compute; reflexivity. Qed.

(** C10: every [Embed] the program can hold has a list of at most 25
    [EmbedField] instances, none of them a mapping, as its [fields], and the
    key [fields] is in its [dict] with that list. *)
Theorem embed_fields_invariant (e : value) :
  reachable C_Embed e ->
  exists fs,
    getattr e "fields" = Returned (VList fs)
    /\ Forall (fun f => is_field f = true /\ isinstance f dict_t = false) fs
    /\ length fs <= 25
    /\ exists m, dict e = Returned m /\ m !! "fields" = Some (VList fs).
Proof.
  intros (s & -> & kw & -> & Hkw)%reachable_well_formed.
  destruct (embed_fields_slot kw Hkw) as (fs & Hfs & Hall & Hlen).
  assert (Hin : "fields" ∈ items C_Embed) by find_property.
  exists fs. rewrite getattr_store, Hfs by done. split; [done|]. split.
  - eapply Forall_impl; [exact Hall|]. intros f Hf. split; [done|].
    by apply is_field_not_dict.
  - split; [done|]. exists (mapping_of C_Embed kw). split; [apply dict_store|].
    rewrite lookup_mapping_of, Hfs. by rewrite decide_True.
Qed.

(** C10 at the instance reached by [e = Embed()] followed by
    [e.fields = [{"name": "n", "value": "v"}]]: the mapping was turned into
    a field. *)
Lemma embed_fields_invariant_witness :
  reachable C_Embed (embed_with VNone (VList [field_nv]))
  /\ exists fs,
       getattr (embed_with VNone (VList [field_nv])) "fields" = Returned (VList fs)
       /\ Forall (fun f => is_field f = true /\ isinstance f dict_t = false) fs
       /\ length fs <= 25
       /\ exists m, dict (embed_with VNone (VList [field_nv])) = Returned m
                    /\ m !! "fields" = Some (VList fs).
Proof.
  assert (E : embed_with VNone (VList [field_nv])
              = (assign (embed_with VNone (VList [])) "fields"
                   (VList [mapping_nv])).1) by (vm_compute; reflexivity).
  assert (H : reachable C_Embed (embed_with VNone (VList [field_nv]))).
  { rewrite E. apply reachable_assign.
    - apply (reachable_new C_Embed (args [])). vm_compute. reflexivity.
    - apply list_elem_of_In. simpl. tauto. }
  split; [exact H|]. exact (embed_fields_invariant _ H).
Defined.

(** ** Assignment *)

(** C2 at the failing inputs: [None] assigned to [EmbedFooter.text],
    [EmbedAuthor.name], [EmbedField.name] or [EmbedField.value] reaches
    [len(None)]; the assignment raises [TypeError] and the instance keeps
    its value.  The constructor called without [text] raises likewise. *)
Theorem assign_None_raises (s : gmap string value) :
  assign (VObj C_EmbedFooter s) "text" VNone
  = (VObj C_EmbedFooter s, Raised (TypeError "object of type 'NoneType' has no len()"))
  /\ assign (VObj C_EmbedAuthor s) "name" VNone
     = (VObj C_EmbedAuthor s, Raised (TypeError "object of type 'NoneType' has no len()"))
  /\ assign (VObj C_EmbedField s) "name" VNone
     = (VObj C_EmbedField s, Raised (TypeError "object of type 'NoneType' has no len()"))
  /\ assign (VObj C_EmbedField s) "value" VNone
     = (VObj C_EmbedField s, Raised (TypeError "object of type 'NoneType' has no len()"))
  /\ construct C_EmbedFooter (args [])
     = Raised (TypeError "object of type 'NoneType' has no len()").
Proof. repeat split; reflexivity. Qed.

(** C3 at the failing input: on [Embed(fields=[EmbedField("a", "b")])] the
    assignment [fields = [EmbedField("n", "v"), 5]] raises [TypeError], and
    the embed then holds [[EmbedField("n", "v")]], not the list it held
    before. *)
Theorem fields_assignment_not_atomic :
  construct C_Embed (args [("fields", VList [field_ab])])
  = Returned (embed_with VNone (VList [field_ab]))
  /\ getattr (embed_with VNone (VList [field_ab])) "fields"
     = Returned (VList [field_ab])
  /\ assign (embed_with VNone (VList [field_ab])) "fields"
       (VList [field_nv; VInt 5])
     = (embed_with VNone (VList [field_nv]),
        Raised (TypeError "fields items must be EmbedField or dict"))
  /\ getattr (embed_with VNone (VList [field_nv])) "fields"
     = Returned (VList [field_nv]).
Proof. repeat split; vm_compute; reflexivity. Qed.

(** C7: a list of mappings [EmbedField.from_dict] accepts, assigned to
    [Embed.fields], raises [ValueError] with the embed untouched when it has
    more than 25 elements, and is stored as the list of the fields built
    from them when it has 25 or fewer. *)
Theorem fields_limit_is_25 (l : list value) (s : gmap string value) :
  Forall (fun d => field_valid d = true) l ->
  (25 < length l ->
     assign (VObj C_Embed s) "fields" (VList l)
     = (VObj C_Embed s,
        Raised (ValueError "embed can contain up to 25 field objects")))
  /\ (length l <= 25 ->
        exists fs,
          Forall2 (fun d f => EmbedField.from_dict d = Returned f) l fs
          /\ assign (VObj C_Embed s) "fields" (VList l)
             = (VObj C_Embed (<["_fields" := VList fs]> s), Returned tt)).
Proof.
  intros Hl.
  change (assign (VObj C_Embed s) "fields" (VList l))
    with (let '(s', r) := Embed.fields_setter (VList l) s in (VObj C_Embed s', r)).
  split; intros Hlen.
  - by rewrite fields_setter_list, bool_decide_eq_true_2.
  - destruct (field_valid_converted l Hl) as (fs & Hfs & Hconv).
    exists fs. split; [done|]. by rewrite (fields_setter_converted l fs).
Qed.

(** C7 at 26 and at 25 copies of [{"name": "n", "value": "v"}], assigned
    to the fields of [Embed()]. *)
Lemma fields_limit_is_25_witness :
  (Forall (fun d => field_valid d = true) (replicate 26 mapping_nv)
   /\ 25 < length (replicate 26 mapping_nv)
   /\ assign (embed_with VNone (VList [])) "fields" (VList (replicate 26 mapping_nv))
      = (embed_with VNone (VList []),
         Raised (ValueError "embed can contain up to 25 field objects")))
  /\ (Forall (fun d => field_valid d = true) (replicate 25 mapping_nv)
      /\ length (replicate 25 mapping_nv) <= 25
      /\ exists fs,
           Forall2 (fun d f => EmbedField.from_dict d = Returned f)
             (replicate 25 mapping_nv) fs
           /\ assign (embed_with VNone (VList [])) "fields"
                (VList (replicate 25 mapping_nv))
              = (VObj C_Embed
                   (<["_fields" := VList fs]> (embed_store VNone (VList []))),
                 Returned tt)).
Proof.
  assert (H : forall n, Forall (fun d => field_valid d = true) (replicate n mapping_nv)).
  { intros n. apply Forall_replicate. vm_compute. reflexivity. }
  assert (H26 : 25 < length (replicate 26 mapping_nv)) by (simpl; lia).
  assert (H25 : length (replicate 25 mapping_nv) <= 25) by (simpl; lia).
  split.
  - split; [exact (H 26)|]. split; [exact H26|].
    exact (proj1 (fields_limit_is_25 (replicate 26 mapping_nv)
                    (embed_store VNone (VList [])) (H 26)) H26).
  - split; [exact (H 25)|]. split; [exact H25|].
    exact (proj2 (fields_limit_is_25 (replicate 25 mapping_nv)
                    (embed_store VNone (VList [])) (H 25)) H25).
Defined.

(** ** Leaf records and mappings *)

(** C4: for every instance [x] of a leaf class that the program can hold,
    [x.dict] is defined and [from_dict] applied to it returns an instance
    with the class and the attribute values of [x]. *)
Theorem leaf_roundtrip (c : pyclass) (x : value) :
  reachable c x -> leaf c = true ->
  exists m, dict x = Returned m /\ from_dict c (VDict m) = Returned x.
Proof.
  intros (s & -> & kw & -> & Hkw)%reachable_well_formed Hleaf.
  exists (mapping_of c kw). split; [apply dict_store|].
  rewrite from_dict_kwargs, kwargs_known.
  - change (construct c (fun k => default VNone (mapping_of c kw !! k))
            = Returned (VObj c (store c kw))).
    assert (Hsame : forall k, k ∈ items c ->
                      default VNone (mapping_of c kw !! k) = kw k).
    { intros k Hk. rewrite lookup_mapping_of.
      destruct (is_None (kw k)) eqn:Hnone.
      - rewrite decide_False by (by intros [_ ?]). simpl.
        symmetry. by apply is_None_true.
      - by rewrite decide_True. }
    rewrite construct_store; [|done|].
    + do 2 f_equal. by apply store_ext.
    + intros k Hk. rewrite Hsame by done. by apply Hkw.
  - intros k [v Hv]. rewrite lookup_mapping_of in Hv.
    case_decide as Hk; [|done]. by destruct Hk.
Qed.

(** C4 at the video reached by
    [v = EmbedVideo(url="https://example.com/v.mp4")] followed by
    [v.height = 480]. *)
Lemma leaf_roundtrip_witness :
  reachable C_EmbedVideo video_example
  /\ leaf C_EmbedVideo = true
  /\ exists m, dict video_example = Returned m
               /\ from_dict C_EmbedVideo (VDict m) = Returned video_example.
Proof.
  assert (E : video_example
              = (assign
                   (VObj C_EmbedVideo
                      {[ "_url" := VStr "https://example.com/v.mp4";
                         "_height" := VNone; "_width" := VNone ]})
                   "height" (VInt 480)).1) by (vm_compute; reflexivity).
  assert (H : reachable C_EmbedVideo video_example).
  { rewrite E. apply reachable_assign.
    - apply (reachable_new C_EmbedVideo
               (args [("url", VStr "https://example.com/v.mp4")])).
      vm_compute. reflexivity.
    - apply list_elem_of_In. simpl. tauto. }
  split; [exact H|]. split; [reflexivity|].
  exact (leaf_roundtrip C_EmbedVideo video_example H eq_refl).
Defined.

(** C9: [EmbedFooter.from_dict({"bogus": 1})] raises the [TypeError] of
    the call, which names the key, and returns no instance. *)
Theorem footer_from_dict_unknown_key :
  EmbedFooter.from_dict (VDict {[ "bogus" := VInt 1 ]})
  = Raised (TypeError "__init__() got an unexpected keyword argument 'bogus'").
Proof. vm_compute; reflexivity. Qed.

(** C5, as stated, fails: [EmbedFooter(text="t",
    icon_url="ftp://example.com/icon.png")] is constructed and holds that
    URL, and so does [EmbedFooter(text="t")] after the assignment of it;
    the scheme is none of those the docstring names. *)
Lemma footer_icon_url_unchecked :
  construct C_EmbedFooter
    (args [("text", VStr "t"); ("icon_url", VStr "ftp://example.com/icon.png")])
  = Returned footer_ftp
  /\ getattr footer_ftp "icon_url" = Returned (VStr "ftp://example.com/icon.png")
  /\ supported_scheme "ftp://example.com/icon.png" = false
  /\ assign footer_t "icon_url" (VStr "ftp://example.com/icon.png")
     = (footer_ftp, Returned tt)
  /\ ~ (forall x u, reachable C_EmbedFooter x ->
          getattr x "icon_url" = Returned (VStr u) -> supported_scheme u = true).
Proof.
  assert (Hc : construct C_EmbedFooter
                 (args [("text", VStr "t");
                        ("icon_url", VStr "ftp://example.com/icon.png")])
               = Returned footer_ftp) by (vm_compute; reflexivity).
  assert (Hg : getattr footer_ftp "icon_url"
               = Returned (VStr "ftp://example.com/icon.png"))
    by (vm_compute; reflexivity).
  split; [exact Hc|]. split; [exact Hg|].
  split; [vm_compute; reflexivity|]. split; [vm_compute; reflexivity|].
  intros H. specialize (H footer_ftp _ (reachable_new _ _ _ Hc) Hg).
  vm_compute in H. discriminate H.
Qed.

(** C5 (amended): for every [EmbedFooter] (and likewise [EmbedImage] and
    [EmbedThumbnail]) the program can hold, [icon_url] (respectively [url])
    is [None] or a string; the setter tests the type only, so a string of
    any scheme is stored by assignment and by construction. *)
Theorem url_attributes_take_any_string (c : pyclass) (attr : string) (x : value) :
  (c, attr) ∈ url_attributes -> reachable c x ->
  (exists w, getattr x attr = Returned w /\ optional str w = true)
  /\ forall u : string,
       (exists x', assign x attr (VStr u) = (x', Returned tt)
                   /\ getattr x' attr = Returned (VStr u))
       /\ (forall kw x0, construct c kw = Returned x0 ->
             exists x', construct c (with_arg attr (VStr u) kw) = Returned x'
                        /\ getattr x' attr = Returned (VStr u)).
Proof.
  intros Hin Hx. unfold url_attributes in Hin.
  assert (H : leaf c = true /\ attr ∈ items c /\ admits c attr = optional str)
    by (cases_pair_of Hin; (split; [done|]; split; [find_property|done])).
  destruct H as (Hleaf & Hattr & Hadm). split.
  - exact (proj1 (typed_attribute c attr str (VStr "") x Hleaf Hattr Hadm eq_refl Hx)).
  - intros u.
    exact (proj2 (typed_attribute c attr str (VStr u) x Hleaf Hattr Hadm eq_refl Hx)).
Qed.

(** The amended C5 at [EmbedFooter(text="t")] and its [icon_url]. *)
Lemma url_attributes_take_any_string_witness :
  (C_EmbedFooter, "icon_url") ∈ url_attributes
  /\ reachable C_EmbedFooter footer_t
  /\ (exists w, getattr footer_t "icon_url" = Returned w /\ optional str w = true)
  /\ forall u : string,
       (exists x', assign footer_t "icon_url" (VStr u) = (x', Returned tt)
                   /\ getattr x' "icon_url" = Returned (VStr u))
       /\ (forall kw x0, construct C_EmbedFooter kw = Returned x0 ->
             exists x', construct C_EmbedFooter (with_arg "icon_url" (VStr u) kw)
                        = Returned x'
                        /\ getattr x' "icon_url" = Returned (VStr u)).
Proof.
  assert (Hin : (C_EmbedFooter, "icon_url") ∈ url_attributes)
    by (unfold url_attributes; left).
  assert (H : reachable C_EmbedFooter footer_t).
  { apply (reachable_new C_EmbedFooter (args [("text", VStr "t")])).
    vm_compute. reflexivity. }
  split; [exact Hin|]. split; [exact H|].
  exact (url_attributes_take_any_string C_EmbedFooter "icon_url" footer_t Hin H).
Defined.

(** C6, as stated, fails: [EmbedVideo(height=-1, width=-1)] is constructed
    and holds both values, and [width = -1] is assigned to a video that
    held none. *)
Lemma video_negative_size_stored :
  construct C_EmbedVideo (args [("height", VInt (-1)); ("width", VInt (-1))])
  = Returned video_negative
  /\ getattr video_negative "height" = Returned (VInt (-1))
  /\ getattr video_negative "width" = Returned (VInt (-1))
  /\ assign video_example "width" (VInt (-1))
     = (VObj C_EmbedVideo {[ "_url" := VStr "https://example.com/v.mp4";
                             "_height" := VInt 480; "_width" := VInt (-1) ]},
        Returned tt)
  /\ ~ (forall x attr n, reachable C_EmbedVideo x -> attr ∈ size_attributes ->
          getattr x attr = Returned (VInt n) -> (0 <= n)%Z).
Proof.
  assert (Hc : construct C_EmbedVideo
                 (args [("height", VInt (-1)); ("width", VInt (-1))])
               = Returned video_negative) by (vm_compute; reflexivity).
  assert (Hg : getattr video_negative "height" = Returned (VInt (-1)))
    by (vm_compute; reflexivity).
  split; [exact Hc|]. split; [exact Hg|].
  split; [vm_compute; reflexivity|]. split; [vm_compute; reflexivity|].
  intros H.
  assert (Hin : "height" ∈ size_attributes) by (unfold size_attributes; left).
  specialize (H video_negative "height" (-1)%Z (reachable_new _ _ _ Hc) Hin Hg).
  lia.
Qed.

(** C6 (amended): for every [EmbedVideo] the program can hold, [height] and
    [width] are [None] or an integer; the setter tests the type only, so any
    integer, negative ones included, is stored by assignment and by
    construction. *)
Theorem video_size_takes_any_integer (attr : string) (x : value) :
  attr ∈ size_attributes -> reachable C_EmbedVideo x ->
  (exists w, getattr x attr = Returned w /\ optional int w = true)
  /\ forall n : Z,
       (exists x', assign x attr (VInt n) = (x', Returned tt)
                   /\ getattr x' attr = Returned (VInt n))
       /\ (forall kw x0, construct C_EmbedVideo kw = Returned x0 ->
             exists x', construct C_EmbedVideo (with_arg attr (VInt n) kw)
                        = Returned x'
                        /\ getattr x' attr = Returned (VInt n)).
Proof.
  intros Hin Hx.
  assert (H : attr ∈ items C_EmbedVideo /\ admits C_EmbedVideo attr = optional int)
    by (unfold size_attributes in Hin; cases_elem_of Hin; (split; [find_property|done])).
  destruct H as (Hattr & Hadm). split.
  - exact (proj1 (typed_attribute C_EmbedVideo attr int (VInt 0) x
                    eq_refl Hattr Hadm eq_refl Hx)).
  - intros n.
    exact (proj2 (typed_attribute C_EmbedVideo attr int (VInt n) x
                    eq_refl Hattr Hadm eq_refl Hx)).
Qed.

(** The amended C6 at [EmbedVideo(height=-1, width=-1)] and its [height]. *)
Lemma video_size_takes_any_integer_witness :
  "height" ∈ size_attributes
  /\ reachable C_EmbedVideo video_negative
  /\ (exists w, getattr video_negative "height" = Returned w
                /\ optional int w = true)
  /\ forall n : Z,
       (exists x', assign video_negative "height" (VInt n) = (x', Returned tt)
                   /\ getattr x' "height" = Returned (VInt n))
       /\ (forall kw x0, construct C_EmbedVideo kw = Returned x0 ->
             exists x', construct C_EmbedVideo (with_arg "height" (VInt n) kw)
                        = Returned x'
                        /\ getattr x' "height" = Returned (VInt n)).
Proof.
  assert (Hin : "height" ∈ size_attributes) by (unfold size_attributes; left).
  assert (H : reachable C_EmbedVideo video_negative).
  { apply (reachable_new C_EmbedVideo
             (args [("height", VInt (-1)); ("width", VInt (-1))])).
    vm_compute. reflexivity. }
  split; [exact Hin|]. split; [exact H|].
  exact (video_size_takes_any_integer "height" video_negative Hin H).
Defined.

(** * Further properties of the setters, constructors and [dict] *)

Ltac cases_quad_of H :=
  repeat (apply elem_of_cons in H as [[= -> -> -> ->]|H]);
  [..|by apply elem_of_nil in H].

Lemma assign_setter c attr f s v :
  setter c attr = Some f ->
  assign (VObj c s) attr v = (let '(s', r) := f v s in (VObj c s', r)).
Proof. intros H. unfold assign. by rewrite H. Qed.

(** The [TypeError] of each shape of setter. *)
Lemma typed_raises t msg name f v s :
  (forall v, f v = (when (negb (is_None v) && negb (isinstance v t))
                      (raise (TypeError msg));;
                    setattr name v)) ->
  is_None v = false -> isinstance v t = false ->
  f v s = (s, Raised (TypeError msg)).
Proof. intros Hf Hn Ht. rewrite Hf. unfold_M. by rewrite Hn, Ht. Qed.

Lemma checked_raises n msg1 msg2 name f v s :
  (forall v, f v = (when (negb (is_None v) && negb (isinstance v str))
                      (raise (TypeError msg1));;
                    k ← lift (len v);
                    when (bool_decide (n < k)) (raise (ValueError msg2));;
                    setattr name v)) ->
  is_None v = false -> isinstance v str = false ->
  f v s = (s, Raised (TypeError msg1)).
Proof. intros Hf Hn Ht. rewrite Hf. unfold_M. by rewrite Hn, Ht. Qed.

Lemma optional_checked_raises n msg1 msg2 name f v s :
  (forall v, f v = (when (negb (is_None v) && negb (isinstance v str))
                      (raise (TypeError msg1));;
                    too_long ← (if isinstance v str
                                then k ← lift (len v); mret (bool_decide (n < k))
                                else mret false);
                    when too_long (raise (ValueError msg2));;
                    setattr name v)) ->
  is_None v = false -> isinstance v str = false ->
  f v s = (s, Raised (TypeError msg1)).
Proof. intros Hf Hn Ht. rewrite Hf. unfold_M. by rewrite Hn, Ht. Qed.

Lemma fields_raises v s :
  is_None v = false -> isinstance v list_t = false ->
  Embed.fields_setter v s = (s, Raised (TypeError "embeds must be list")).
Proof. intros Hn Ht. unfold Embed.fields_setter. unfold_M. by rewrite Hn, Ht. Qed.

(** The length test of each shape of setter, on a string. *)
Lemma checked_on_str n msg1 msg2 name f u s :
  (forall v, f v = (when (negb (is_None v) && negb (isinstance v str))
                      (raise (TypeError msg1));;
                    k ← lift (len v);
                    when (bool_decide (n < k)) (raise (ValueError msg2));;
                    setattr name v)) ->
  f (VStr u) s
  = if bool_decide (String.length u <= n)
    then (<[name := VStr u]> s, Returned tt)
    else (s, Raised (ValueError msg2)).
Proof.
  intros Hf. rewrite Hf. unfold_M. simpl.
  do 2 case_bool_decide; simpl; try done; lia.
Qed.

Lemma optional_checked_on_str n msg1 msg2 name f u s :
  (forall v, f v = (when (negb (is_None v) && negb (isinstance v str))
                      (raise (TypeError msg1));;
                    too_long ← (if isinstance v str
                                then k ← lift (len v); mret (bool_decide (n < k))
                                else mret false);
                    when too_long (raise (ValueError msg2));;
                    setattr name v)) ->
  f (VStr u) s
  = if bool_decide (String.length u <= n)
    then (<[name := VStr u]> s, Returned tt)
    else (s, Raised (ValueError msg2)).
Proof.
  intros Hf. rewrite Hf. unfold_M. simpl.
  do 2 case_bool_decide; simpl; try done; lia.
Qed.

(** X1: a value that is neither [None] nor an instance of the type the
    setter tests makes the assignment raise [TypeError] with the setter's
    message, whatever the instance holds, and the instance is left as it
    was.  This covers every property of every class, [Embed.fields] with a
    non-list included. *)
Theorem type_mismatch_raises (c : pyclass) (attr : string) (t : pytype)
    (msg : string) (s : gmap string value) (v : value) :
  (c, attr, t, msg) ∈ declared ->
  is_None v = false -> isinstance v t = false ->
  assign (VObj c s) attr v = (VObj c s, Raised (TypeError msg)).
Proof.
  intros Hin Hn Ht. unfold declared in Hin. cases_quad_of Hin.
  all: erewrite assign_setter by reflexivity.
  all: first
    [ erewrite typed_raises; [reflexivity | intros; reflexivity | done | done]
    | erewrite checked_raises; [reflexivity | intros; reflexivity | done | done]
    | erewrite optional_checked_raises;
        [reflexivity | intros; reflexivity | done | done]
    | rewrite fields_raises by done; reflexivity ].
Qed.

(** X1 at [EmbedVideo.height = "480"] and at [Embed.footer = {"text": "t"}]:
    a mapping is no [EmbedFooter]. *)
Lemma type_mismatch_raises_witness :
  ((C_EmbedVideo, "height", int, "height must be int") ∈ declared
   /\ is_None (VStr "480") = false /\ isinstance (VStr "480") int = false
   /\ assign video_example "height" (VStr "480")
      = (video_example, Raised (TypeError "height must be int")))
  /\ ((C_Embed, "footer", cls C_EmbedFooter, "footer must be EmbedFooter object")
        ∈ declared
      /\ is_None (VDict {[ "text" := VStr "t" ]}) = false
      /\ isinstance (VDict {[ "text" := VStr "t" ]}) (cls C_EmbedFooter) = false
      /\ assign (embed_with VNone (VList [])) "footer" (VDict {[ "text" := VStr "t" ]})
         = (embed_with VNone (VList []),
            Raised (TypeError "footer must be EmbedFooter object"))).
Proof.
  assert (H1 : (C_EmbedVideo, "height", int, "height must be int") ∈ declared)
    by (apply list_elem_of_In; simpl; tauto).
  assert (H2 : (C_Embed, "footer", cls C_EmbedFooter,
                "footer must be EmbedFooter object") ∈ declared)
    by (apply list_elem_of_In; simpl; tauto).
  split.
  - split; [exact H1|]. split; [reflexivity|]. split; [reflexivity|].
    exact (type_mismatch_raises _ _ _ _ _ (VStr "480") H1 eq_refl eq_refl).
  - split; [exact H2|]. split; [reflexivity|]. split; [reflexivity|].
    exact (type_mismatch_raises _ _ _ _ _ (VDict {[ "text" := VStr "t" ]})
             H2 eq_refl eq_refl).
Defined.

(** X2: for each of the six properties with a length test, assigning a
    string of at most the bound stores it, and assigning a longer one raises
    [ValueError] with the setter's message and leaves the instance as it
    was. *)
Theorem length_limit_exact (c : pyclass) (attr : string) (n : nat)
    (msg : string) (s : gmap string value) (u : string) :
  (c, attr, n, msg) ∈ length_limits ->
  assign (VObj c s) attr (VStr u)
  = if bool_decide (String.length u <= n)
    then (VObj c (<["_" ++ attr := VStr u]> s), Returned tt)
    else (VObj c s, Raised (ValueError msg)).
Proof.
  intros Hin. unfold length_limits in Hin. cases_quad_of Hin.
  all: erewrite assign_setter by reflexivity.
  all: first
    [ erewrite checked_on_str by (intros; reflexivity)
    | erewrite optional_checked_on_str by (intros; reflexivity) ].
  all: by case_bool_decide.
Qed.

(** X2 at [EmbedFooter.text] with 2048 and with 2049 characters. *)
Lemma length_limit_exact_witness :
  (C_EmbedFooter, "text", 2048, "text length must be up to 2048 characters")
    ∈ length_limits
  /\ assign footer_t "text" (VStr (pad 2048))
     = (VObj C_EmbedFooter {[ "_text" := VStr (pad 2048); "_icon_url" := VNone ]},
        Returned tt)
  /\ assign footer_t "text" (VStr (pad 2049))
     = (footer_t, Raised (ValueError "text length must be up to 2048 characters")).
Proof.
  assert (H : (C_EmbedFooter, "text", 2048,
               "text length must be up to 2048 characters") ∈ length_limits)
    by (apply list_elem_of_In; simpl; tauto).
  split; [exact H|]. split.
  - unfold footer_t. rewrite (length_limit_exact _ _ _ _ _ (pad 2048) H).
    vm_compute. reflexivity.
  - unfold footer_t. rewrite (length_limit_exact _ _ _ _ _ (pad 2049) H).
    vm_compute. reflexivity.
Defined.

Lemma optional_cases t v :
  optional t v = true -> v = VNone \/ isinstance v t = true.
Proof.
  unfold optional. intros [H|H]%orb_true_iff; [left; by destruct v | by right].
Qed.

Lemma str_upto_cases n v :
  str_upto n v = true -> exists u, v = VStr u /\ String.length u <= n.
Proof.
  destruct v; try done. simpl. intros H%negb_true_iff%bool_decide_eq_false.
  eexists. split; [done | lia].
Qed.

Lemma optional_str_upto_cases n v :
  optional_str_upto n v = true ->
  v = VNone \/ exists u, v = VStr u /\ String.length u <= n.
Proof.
  unfold optional_str_upto. intros [H|H]%orb_true_iff.
  - left. by destruct v.
  - right. by apply str_upto_cases.
Qed.

Lemma field_list_cases v :
  field_list v = true -> isinstance v list_t = true.
Proof. by destruct v. Qed.

Lemma reachable_store c x :
  reachable c x ->
  exists kw, x = VObj c (store c kw)
             /\ forall k, k ∈ items c -> admits c k (kw k) = true.
Proof.
  intros (s & -> & kw & -> & Hkw)%reachable_well_formed. by exists kw.
Qed.

(** X3: in every instance the program can hold, every property reads as
    [None] or as an instance of the type its setter tests ([Embed.fields] as
    a list). *)
Theorem attribute_types (c : pyclass) (attr : string) (t : pytype)
    (msg : string) (x : value) :
  (c, attr, t, msg) ∈ declared -> reachable c x ->
  exists v, getattr x attr = Returned v /\ (v = VNone \/ isinstance v t = true).
Proof.
  intros Hin (kw & -> & Hkw)%reachable_store.
  assert (Hattr : attr ∈ items c)
    by (unfold declared in Hin; cases_quad_of Hin; find_property).
  exists (kw attr). rewrite getattr_store by done. split; [done|].
  pose proof (Hkw attr Hattr) as H. clear Hkw Hattr.
  unfold declared in Hin. cases_quad_of Hin.
  all: first
    [ by apply optional_cases in H
    | apply str_upto_cases in H as (u & -> & _); by right
    | apply optional_str_upto_cases in H as [->|(u & -> & _)]; [by left | by right]
    | apply field_list_cases in H; by right ].
Qed.

(** X3 at the video reached by [EmbedVideo(url=..., height=480)]. *)
Lemma attribute_types_witness :
  (C_EmbedVideo, "height", int, "height must be int") ∈ declared
  /\ reachable C_EmbedVideo
       (VObj C_EmbedVideo {[ "_url" := VStr "https://example.com/v.mp4";
                             "_height" := VInt 480; "_width" := VNone ]})
  /\ exists v,
       getattr (VObj C_EmbedVideo {[ "_url" := VStr "https://example.com/v.mp4";
                                     "_height" := VInt 480; "_width" := VNone ]})
         "height" = Returned v
       /\ (v = VNone \/ isinstance v int = true).
Proof.
  assert (H1 : (C_EmbedVideo, "height", int, "height must be int") ∈ declared)
    by (apply list_elem_of_In; simpl; tauto).
  assert (H2 : reachable C_EmbedVideo
                 (VObj C_EmbedVideo {[ "_url" := VStr "https://example.com/v.mp4";
                                       "_height" := VInt 480; "_width" := VNone ]})).
  { apply (reachable_new C_EmbedVideo
             (args [("url", VStr "https://example.com/v.mp4");
                    ("height", VInt 480)])).
    vm_compute. reflexivity. }
  split; [exact H1|]. split; [exact H2|].
  exact (attribute_types _ _ _ _ _ H1 H2).
Defined.

(** X4: in every instance the program can hold, a string read from a
    property with a length test is within the bound of that test. *)
Theorem attribute_lengths (c : pyclass) (attr : string) (n : nat)
    (msg : string) (x : value) (u : string) :
  (c, attr, n, msg) ∈ length_limits -> reachable c x ->
  getattr x attr = Returned (VStr u) -> String.length u <= n.
Proof.
  intros Hin (kw & -> & Hkw)%reachable_store.
  assert (Hattr : attr ∈ items c)
    by (unfold length_limits in Hin; cases_quad_of Hin; find_property).
  rewrite getattr_store by done. intros [= Hu].
  pose proof (Hkw attr Hattr) as H. clear Hkw Hattr.
  unfold length_limits in Hin. cases_quad_of Hin.
  all: first
    [ apply str_upto_cases in H as (u' & Hu' & Hlen)
    | apply optional_str_upto_cases in H as [Hu'|(u' & Hu' & Hlen)];
        [congruence|] ].
  all: rewrite Hu in Hu'; by injection Hu' as ->.
Qed.

(** X4 at the title of [Embed(title="hello")]. *)
Lemma attribute_lengths_witness :
  (C_Embed, "title", 256, "title length must be up to 256 characters")
    ∈ length_limits
  /\ reachable C_Embed
       (VObj C_Embed (<["_title" := VStr "hello"]> (embed_store VNone (VList []))))
  /\ getattr
       (VObj C_Embed (<["_title" := VStr "hello"]> (embed_store VNone (VList []))))
       "title" = Returned (VStr "hello")
  /\ String.length "hello" <= 256.
Proof.
  assert (H1 : (C_Embed, "title", 256,
                "title length must be up to 256 characters") ∈ length_limits)
    by (apply list_elem_of_In; simpl; tauto).
  assert (H2 : reachable C_Embed
                 (VObj C_Embed
                    (<["_title" := VStr "hello"]> (embed_store VNone (VList []))))).
  { apply (reachable_new C_Embed (args [("title", VStr "hello")])).
    vm_compute. reflexivity. }
  assert (H3 : getattr
                 (VObj C_Embed
                    (<["_title" := VStr "hello"]> (embed_store VNone (VList []))))
                 "title" = Returned (VStr "hello")) by (vm_compute; reflexivity).
  split; [exact H1|]. split; [exact H2|]. split; [exact H3|].
  exact (attribute_lengths _ _ _ _ _ _ H1 H2 H3).
Defined.

(** X5: an [EmbedFooter] the program can hold always has a string as
    [text], never [None]; likewise [EmbedAuthor.name], [EmbedField.name]
    and [EmbedField.value].  Their setters call [len] on the argument
    before storing it, which [None] does not survive. *)
Theorem unguarded_attributes_are_strings (c : pyclass) (attr : string) (x : value) :
  (c, attr) ∈ unguarded_len -> reachable c x ->
  exists u, getattr x attr = Returned (VStr u).
Proof.
  intros Hin (kw & -> & Hkw)%reachable_store.
  assert (Hattr : attr ∈ items c)
    by (unfold unguarded_len in Hin; cases_pair_of Hin; find_property).
  pose proof (Hkw attr Hattr) as H. rewrite getattr_store by done.
  clear Hkw Hattr. unfold unguarded_len in Hin. cases_pair_of Hin.
  all: apply str_upto_cases in H as (u & -> & _); by exists u.
Qed.

(** X5 at [EmbedField(name="n", value="v")]. *)
Lemma unguarded_attributes_are_strings_witness :
  (C_EmbedField, "value") ∈ unguarded_len
  /\ reachable C_EmbedField field_nv
  /\ exists u, getattr field_nv "value" = Returned (VStr u).
Proof.
  assert (H1 : (C_EmbedField, "value") ∈ unguarded_len)
    by (apply list_elem_of_In; simpl; tauto).
  assert (H2 : reachable C_EmbedField field_nv).
  { apply (reachable_new C_EmbedField
             (args [("name", VStr "n"); ("value", VStr "v")])).
    vm_compute. reflexivity. }
  split; [exact H1|]. split; [exact H2|].
  exact (unguarded_attributes_are_strings _ _ _ H1 H2).
Defined.

Lemma setter_touches_own_slot c attr f v s :
  setter c attr = Some f ->
  (f v s).1 = s \/ exists w, (f v s).1 = <["_" ++ attr := w]> s.
Proof.
  intros Hf. pose proof (assoc_elem_of _ _ _ Hf) as Hin.
  destruct (decide ((c, attr) = (C_Embed, "fields"))) as [[= -> ->]|Hne].
  - apply setter_fields in Hf as ->.
    destruct (fields_setter_store v s) as [[e ->]|(l & r & -> & _)].
    + by left.
    + right. by exists (VList l).
  - pose proof (setter_guarded c attr f Hin Hne v s) as H.
    destruct (admits c attr v).
    + right. exists v. by rewrite H.
    + destruct H as [e ->]. by left.
Qed.

(** X6: an assignment to one property, whether it returns or raises, leaves
    every other property of the instance as it was. *)
Theorem assign_frame (c : pyclass) (s : gmap string value) (a b : string) (v : value) :
  a ∈ items c -> b ≠ a ->
  getattr (assign (VObj c s) a v).1 b = getattr (VObj c s) b.
Proof.
  intros Ha Hne. destruct (items_setter c a Ha) as [f Hf].
  rewrite (assign_setter c a f s v Hf).
  destruct (setter_touches_own_slot c a f v s Hf) as [H|[w H]];
    destruct (f v s) as [s' r]; simpl in *; subst s'; [done|].
  unfold getattr, BaseSerializable.property, getslot.
  rewrite lookup_insert_ne; [by destruct (s !! _)|].
  intros H'%underscore_inj. by subst.
Qed.

(** X6 at the assignment [fields = [EmbedField("n", "v"), 5]], which
    raises: the footer is still there. *)
Lemma assign_frame_witness :
  "fields" ∈ items C_Embed /\ "footer" ≠ "fields"
  /\ getattr (assign (embed_with footer_t (VList [field_ab])) "fields"
                (VList [field_nv; VInt 5])).1 "footer"
     = getattr (embed_with footer_t (VList [field_ab])) "footer".
Proof.
  assert (H1 : "fields" ∈ items C_Embed) by (apply list_elem_of_In; simpl; tauto).
  assert (H2 : "footer" ≠ "fields") by discriminate.
  split; [exact H1|]. split; [exact H2|].
  exact (assign_frame C_Embed _ "fields" "footer" _ H1 H2).
Defined.

(** X7: after an assignment that returns, the property reads as the value
    assigned ([Embed.fields], which converts its argument, apart). *)
Theorem assign_then_read (c : pyclass) (s : gmap string value) (attr : string)
    (v x : value) :
  attr ∈ items c -> (c, attr) ≠ (C_Embed, "fields") ->
  assign (VObj c s) attr v = (x, Returned tt) ->
  getattr x attr = Returned v.
Proof.
  intros Ha Hne. destruct (items_setter c attr Ha) as [f Hf].
  rewrite (assign_setter c attr f s v Hf).
  pose proof (assoc_elem_of _ _ _ Hf) as Hin.
  destruct (f v s) as [s' r] eqn:Hrun. intros [= <- ->].
  apply (setter_returns c attr f v s s' Hin Hne) in Hrun as [-> _].
  unfold getattr, BaseSerializable.property, getslot. by rewrite lookup_insert_eq.
Qed.

(** X7 at [EmbedFooter(text="t")] and the assignment [text = "u"]. *)
Lemma assign_then_read_witness :
  "text" ∈ items C_EmbedFooter
  /\ (C_EmbedFooter, "text") ≠ (C_Embed, "fields")
  /\ assign footer_t "text" (VStr "u")
     = (VObj C_EmbedFooter {[ "_text" := VStr "u"; "_icon_url" := VNone ]},
        Returned tt)
  /\ getattr (VObj C_EmbedFooter {[ "_text" := VStr "u"; "_icon_url" := VNone ]})
       "text" = Returned (VStr "u").
Proof.
  assert (H1 : "text" ∈ items C_EmbedFooter) by (apply list_elem_of_In; simpl; tauto).
  assert (H2 : (C_EmbedFooter, "text") ≠ (C_Embed, "fields")) by discriminate.
  assert (H3 : assign footer_t "text" (VStr "u")
               = (VObj C_EmbedFooter {[ "_text" := VStr "u"; "_icon_url" := VNone ]},
                  Returned tt)) by (vm_compute; reflexivity).
  split; [exact H1|]. split; [exact H2|]. split; [exact H3|].
  exact (assign_then_read C_EmbedFooter _ "text" (VStr "u") _ H1 H2 H3).
Defined.

(** X8: an assignment that raises leaves the instance exactly as it was,
    for every property but [Embed.fields]. *)
Theorem raising_assignment_is_atomic (c : pyclass) (s : gmap string value)
    (attr : string) (v x : value) (e : exn) :
  attr ∈ items c -> (c, attr) ≠ (C_Embed, "fields") ->
  assign (VObj c s) attr v = (x, Raised e) -> x = VObj c s.
Proof. apply assign_raises_unchanged. Qed.

(** X8 at [EmbedAuthor(name="n")] and the assignment [name = 7]. *)
Lemma raising_assignment_is_atomic_witness :
  "name" ∈ items C_EmbedAuthor
  /\ (C_EmbedAuthor, "name") ≠ (C_Embed, "fields")
  /\ assign (VObj C_EmbedAuthor
               {[ "_name" := VStr "n"; "_url" := VNone; "_icon_url" := VNone ]})
       "name" (VInt 7)
     = (VObj C_EmbedAuthor
          {[ "_name" := VStr "n"; "_url" := VNone; "_icon_url" := VNone ]},
        Raised (TypeError "name must be string"))
  /\ VObj C_EmbedAuthor
       {[ "_name" := VStr "n"; "_url" := VNone; "_icon_url" := VNone ]}
     = VObj C_EmbedAuthor
         {[ "_name" := VStr "n"; "_url" := VNone; "_icon_url" := VNone ]}.
Proof.
  assert (H1 : "name" ∈ items C_EmbedAuthor) by (apply list_elem_of_In; simpl; tauto).
  assert (H2 : (C_EmbedAuthor, "name") ≠ (C_Embed, "fields")) by discriminate.
  assert (H3 : assign (VObj C_EmbedAuthor
                         {[ "_name" := VStr "n"; "_url" := VNone;
                            "_icon_url" := VNone ]})
                 "name" (VInt 7)
               = (VObj C_EmbedAuthor
                    {[ "_name" := VStr "n"; "_url" := VNone; "_icon_url" := VNone ]},
                  Raised (TypeError "name must be string")))
    by (vm_compute; reflexivity).
  split; [exact H1|]. split; [exact H2|]. split; [exact H3|].
  exact (raising_assignment_is_atomic C_EmbedAuthor _ "name" (VInt 7) _ _ H1 H2 H3).
Defined.

(** X9: for every instance the program can hold, [dict] returns, and the
    mapping it returns has exactly the properties that are not [None], each
    bound to the value the property reads as. *)
Theorem dict_has_the_set_attributes (c : pyclass) (x : value) :
  reachable c x ->
  exists m, dict x = Returned m
    /\ forall k v, m !! k = Some v
                   <-> (k ∈ items c /\ getattr x k = Returned v /\ v ≠ VNone).
Proof.
  intros (kw & -> & Hkw)%reachable_store.
  exists (mapping_of c kw). split; [apply dict_store|].
  intros k v. rewrite lookup_mapping_of. split.
  - case_decide as Hk; [|done]. destruct Hk as [Hk Hn]. intros [= <-].
    rewrite getattr_store by done. split; [done|]. split; [done|].
    intros Hv. by rewrite Hv in Hn.
  - intros (Hk & Hget & Hv). rewrite getattr_store in Hget by done.
    injection Hget as <-. rewrite decide_True; [done|]. split; [done|].
    by destruct (kw k).
Qed.

(** X9 at [EmbedFooter(text="t")]. *)
Lemma dict_has_the_set_attributes_witness :
  reachable C_EmbedFooter footer_t
  /\ exists m, dict footer_t = Returned m
       /\ forall k v, m !! k = Some v
                      <-> (k ∈ items C_EmbedFooter
                           /\ getattr footer_t k = Returned v /\ v ≠ VNone).
Proof.
  assert (H : reachable C_EmbedFooter footer_t).
  { apply (reachable_new C_EmbedFooter (args [("text", VStr "t")])).
    vm_compute. reflexivity. }
  split; [exact H|]. exact (dict_has_the_set_attributes _ _ H).
Defined.

Lemma fields_converted_self fs :
  Forall (fun f => is_field f = true) fs ->
  Forall2 (fun x f => converted x = Some f) fs fs.
Proof.
  induction 1 as [|f fs Hf _ IH]; constructor; [|done].
  unfold converted. by rewrite Hf.
Qed.

Lemma construct_embed_store kw :
  (forall k, k ∈ items C_Embed -> admits C_Embed k (kw k) = true) ->
  construct C_Embed kw = Returned (VObj C_Embed (store C_Embed kw)).
Proof.
  intros H. destruct (embed_fields_slot kw H) as (fs & Hfs & Hall & Hlen).
  unfold construct, new, init, Embed.__init__. unfold mbind, M_bind.
  accept_setters C_Embed kw H.
  rewrite Hfs, (fields_setter_converted fs fs) by (done || by apply fields_converted_self).
  rewrite <- Hfs. reflexivity.
Qed.

(** X10: for every [Embed] the program can hold, [Embed.from_dict] applied
    to its [dict] returns an embed with the same attribute values.  ([dict]
    keeps the nested instances, which the setters of [Embed] take back.) *)
Theorem embed_roundtrip (e : value) :
  reachable C_Embed e ->
  exists m, dict e = Returned m /\ Embed.from_dict (VDict m) = Returned e.
Proof.
  intros (kw & -> & Hkw)%reachable_store.
  exists (mapping_of C_Embed kw). split; [apply dict_store|].
  change (Embed.from_dict (VDict (mapping_of C_Embed kw)))
    with (from_dict C_Embed (VDict (mapping_of C_Embed kw))).
  rewrite from_dict_kwargs, kwargs_known.
  - change (construct C_Embed
              (fun k => default VNone (mapping_of C_Embed kw !! k))
            = Returned (VObj C_Embed (store C_Embed kw))).
    assert (Hsame : forall k, k ∈ items C_Embed ->
                      default VNone (mapping_of C_Embed kw !! k) = kw k).
    { intros k Hk. rewrite lookup_mapping_of.
      destruct (is_None (kw k)) eqn:Hnone.
      - rewrite decide_False by (by intros [_ ?]). simpl.
        symmetry. by apply is_None_true.
      - by rewrite decide_True. }
    rewrite construct_embed_store.
    + do 2 f_equal. by apply store_ext.
    + intros k Hk. rewrite Hsame by done. by apply Hkw.
  - intros k [v Hv]. rewrite lookup_mapping_of in Hv.
    case_decide as Hk; [|done]. by destruct Hk.
Qed.

(** X10 at [Embed(footer=EmbedFooter(text="t"),
    fields=[EmbedField("n", "v")])]. *)
Lemma embed_roundtrip_witness :
  reachable C_Embed (embed_with footer_t (VList [field_nv]))
  /\ exists m, dict (embed_with footer_t (VList [field_nv])) = Returned m
               /\ Embed.from_dict (VDict m)
                  = Returned (embed_with footer_t (VList [field_nv])).
Proof.
  assert (H : reachable C_Embed (embed_with footer_t (VList [field_nv]))).
  { apply (reachable_new C_Embed
             (args [("footer", footer_t); ("fields", VList [field_nv])])).
    vm_compute. reflexivity. }
  split; [exact H|]. exact (embed_roundtrip _ H).
Defined.



(** X12: [None] assigned to the [fields] of an [Embed] the program can hold
    is stored as the empty list: the assignment returns, [fields] reads as
    the empty list, and [dict] keeps the key [fields]. *)
Theorem fields_None_is_empty_list (e : value) :
  reachable C_Embed e ->
  exists e', assign e "fields" VNone = (e', Returned tt)
             /\ getattr e' "fields" = Returned (VList [])
             /\ exists m, dict e' = Returned m /\ m !! "fields" = Some (VList []).
Proof. apply assign_None_fields. Qed.

(** X12 at [Embed(fields=[EmbedField("n", "v")])]. *)
Lemma fields_None_is_empty_list_witness :
  reachable C_Embed (embed_with VNone (VList [field_nv]))
  /\ exists e', assign (embed_with VNone (VList [field_nv])) "fields" VNone
                = (e', Returned tt)
                /\ getattr e' "fields" = Returned (VList [])
                /\ exists m, dict e' = Returned m
                             /\ m !! "fields" = Some (VList []).
Proof.
  assert (H : reachable C_Embed (embed_with VNone (VList [field_nv]))).
  { apply (reachable_new C_Embed (args [("fields", VList [field_nv])])).
    vm_compute. reflexivity. }
  split; [exact H|]. exact (fields_None_is_empty_list _ H).
Defined.

(** X13: every property other than [Embed.fields] and the four whose
    setter calls [len] unguarded is cleared by assigning [None]: the
    assignment returns, the property reads as [None], and [dict] leaves its
    key out. *)
Theorem None_clears (c : pyclass) (attr : string) (x : value) :
  (c, attr) ∈ clearable -> reachable c x ->
  exists x', assign x attr VNone = (x', Returned tt)
             /\ getattr x' attr = Returned VNone
             /\ exists m, dict x' = Returned m /\ m !! attr = None.
Proof.
  intros Hin Hx. unfold clearable in Hin.
  assert (H : attr ∈ items c /\ (c, attr) ≠ (C_Embed, "fields")
              /\ admits c attr VNone = true)
    by (cases_pair_of Hin; (split; [find_property|]; split; done)).
  destruct H as (Ha & Hne & Hok). by apply (assign_None_clears c attr x).
Qed.

(** X13 at the title of [Embed(title="hello")]. *)
Lemma None_clears_witness :
  (C_Embed, "title") ∈ clearable
  /\ reachable C_Embed
       (VObj C_Embed (<["_title" := VStr "hello"]> (embed_store VNone (VList []))))
  /\ exists x',
       assign (VObj C_Embed
                 (<["_title" := VStr "hello"]> (embed_store VNone (VList []))))
         "title" VNone = (x', Returned tt)
       /\ getattr x' "title" = Returned VNone
       /\ exists m, dict x' = Returned m /\ m !! "title" = None.
Proof.
  assert (H1 : (C_Embed, "title") ∈ clearable)
    by (apply list_elem_of_In; simpl; tauto).
  assert (H2 : reachable C_Embed
                 (VObj C_Embed
                    (<["_title" := VStr "hello"]> (embed_store VNone (VList []))))).
  { apply (reachable_new C_Embed (args [("title", VStr "hello")])).
    vm_compute. reflexivity. }
  split; [exact H1|]. split; [exact H2|]. exact (None_clears _ _ _ H1 H2).
Defined.

Lemma taken_as_converted x f : taken_as x f -> converted x = Some f.
Proof.
  unfold converted. intros [[Hx ->]|[Hd Hf]].
  - by rewrite Hx.
  - destruct x; try done. simpl. by rewrite Hf.
Qed.

Lemma taken_as_all_converted l fs :
  Forall2 taken_as l fs -> Forall2 (fun x f => converted x = Some f) l fs.
Proof.
  intros H. eapply Forall2_impl; [exact H|]. intros x f. apply taken_as_converted.
Qed.

Lemma fields_item_refused bad e s :
  refused_with bad e -> Embed.fields_item bad s = (s, Raised e).
Proof.
  unfold Embed.fields_item. fold (is_field bad).
  intros [(Hf & Hd & ->)|[Hd He]].
  - by rewrite Hf, Hd.
  - destruct bad; try done. simpl. unfold mbind, M_bind, lift. by rewrite He.
Qed.

Lemma fields_loop_refused pre fs bad rest e s acc :
  Forall2 (fun x f => converted x = Some f) pre fs ->
  refused_with bad e ->
  s !! "_fields" = Some (VList acc) ->
  for_each (pre ++ bad :: rest) Embed.fields_item s
  = (<["_fields" := VList (acc ++ fs)]> s, Raised e).
Proof.
  intros H Hbad. revert s acc. induction H as [|x f l fs Hx _ IH]; intros s acc Hs.
  - simpl. unfold mbind, M_bind. rewrite (fields_item_refused bad e s Hbad).
    by rewrite app_nil_r, insert_id.
  - simpl. unfold mbind at 1, M_bind at 1.
    rewrite (fields_item_converted x f s acc Hx Hs).
    rewrite (IH _ (acc ++ [f])%list) by (by rewrite lookup_insert_eq).
    by rewrite insert_insert_eq, <- app_assoc.
Qed.

Lemma assign_fields s v :
  assign (VObj C_Embed s) "fields" v
  = (let '(s', r) := Embed.fields_setter v s in (VObj C_Embed s', r)).
Proof. reflexivity. Qed.

(** X14: a list of at most 25 elements, each an [EmbedField] or a mapping
    [EmbedField.from_dict] accepts, assigned to [Embed.fields], is stored
    element by element and in order: a field as it is, a mapping as the
    field built from it. *)
Theorem fields_stored_in_order (l fs : list value) (s : gmap string value) :
  length l <= 25 -> Forall2 taken_as l fs ->
  assign (VObj C_Embed s) "fields" (VList l)
  = (VObj C_Embed (<["_fields" := VList fs]> s), Returned tt).
Proof.
  intros Hlen H. rewrite assign_fields.
  by rewrite (fields_setter_converted l fs s Hlen (taken_as_all_converted l fs H)).
Qed.

(** X14 at [[EmbedField("a", "b"), {"name": "n", "value": "v"}]] assigned
    to the fields of [Embed()]. *)
Lemma fields_stored_in_order_witness :
  length [field_ab; mapping_nv] <= 25
  /\ Forall2 taken_as [field_ab; mapping_nv] [field_ab; field_nv]
  /\ assign (embed_with VNone (VList [])) "fields" (VList [field_ab; mapping_nv])
     = (VObj C_Embed
          (<["_fields" := VList [field_ab; field_nv]]> (embed_store VNone (VList []))),
        Returned tt).
Proof.
  assert (H1 : length [field_ab; mapping_nv] <= 25) by (simpl; lia).
  assert (H2 : Forall2 taken_as [field_ab; mapping_nv] [field_ab; field_nv]).
  { constructor; [left; split; reflexivity|].
    constructor; [|constructor].
    right. split; [reflexivity|]. vm_compute. reflexivity. }
  split; [exact H1|]. split; [exact H2|].
  exact (fields_stored_in_order _ _ (embed_store VNone (VList [])) H1 H2).
Defined.

(** X15: when a list of at most 25 elements assigned to [Embed.fields] has
    an element the loop refuses (neither a field nor a mapping, or a mapping
    [EmbedField.from_dict] rejects), the assignment raises the exception of
    that element, and the embed then holds the fields of the elements before
    it in place of its previous list. *)
Theorem fields_refused_keeps_prefix (pre fs : list value) (bad : value)
    (rest : list value) (e : exn) (s : gmap string value) :
  length (pre ++ bad :: rest) <= 25 ->
  Forall2 taken_as pre fs -> refused_with bad e ->
  assign (VObj C_Embed s) "fields" (VList (pre ++ bad :: rest))
  = (VObj C_Embed (<["_fields" := VList fs]> s), Raised e).
Proof.
  intros Hlen H Hbad. rewrite assign_fields, fields_setter_list.
  rewrite bool_decide_eq_false_2 by lia.
  rewrite (fields_loop_refused pre fs bad rest e _ []
             (taken_as_all_converted pre fs H) Hbad)
    by (by rewrite lookup_insert_eq).
  by rewrite insert_insert_eq.
Qed.

(** X15 at [[{"name": "n", "value": "v"}, {"name": 5}, EmbedField("a", "b")]]
    assigned to the fields of [Embed(fields=[EmbedField("a", "b")])]: the
    second mapping is rejected by the setter of [EmbedField.name]. *)
Lemma fields_refused_keeps_prefix_witness :
  length ([mapping_nv] ++ VDict {[ "name" := VInt 5 ]} :: [field_ab]) <= 25
  /\ Forall2 taken_as [mapping_nv] [field_nv]
  /\ refused_with (VDict {[ "name" := VInt 5 ]}) (TypeError "name must be string")
  /\ assign (embed_with VNone (VList [field_ab])) "fields"
       (VList ([mapping_nv] ++ VDict {[ "name" := VInt 5 ]} :: [field_ab]))
     = (VObj C_Embed
          (<["_fields" := VList [field_nv]]> (embed_store VNone (VList [field_ab]))),
        Raised (TypeError "name must be string")).
Proof.
  assert (H1 : length ([mapping_nv] ++ VDict {[ "name" := VInt 5 ]} :: [field_ab])
               <= 25) by (simpl; lia).
  assert (H2 : Forall2 taken_as [mapping_nv] [field_nv]).
  { constructor; [|constructor].
    right. split; [reflexivity|]. vm_compute. reflexivity. }
  assert (H3 : refused_with (VDict {[ "name" := VInt 5 ]})
                 (TypeError "name must be string")).
  { right. split; [reflexivity|]. vm_compute. reflexivity. }
  split; [exact H1|]. split; [exact H2|]. split; [exact H3|].
  exact (fields_refused_keeps_prefix _ _ _ _ _
           (embed_store VNone (VList [field_ab])) H1 H2 H3).
Defined.

(** X16: which constructor calls return.  [EmbedFooter(text, icon_url)]
    returns exactly when [text] is a string of at most 2048 characters and
    [icon_url] is [None] or a string; [EmbedAuthor] and [EmbedField]
    likewise need their [name] (and [value]) as a string within the bound,
    so a call that leaves these arguments to their default [None] does not
    return. *)
Theorem constructors_need_their_strings (kw : string -> value) :
  ((exists x, construct C_EmbedFooter kw = Returned x)
   <-> str_upto 2048 (kw "text") = true /\ optional str (kw "icon_url") = true)
  /\ ((exists x, construct C_EmbedAuthor kw = Returned x)
      <-> str_upto 256 (kw "name") = true /\ optional str (kw "url") = true
          /\ optional str (kw "icon_url") = true)
  /\ ((exists x, construct C_EmbedField kw = Returned x)
      <-> str_upto 256 (kw "name") = true /\ str_upto 1024 (kw "value") = true).
Proof.
  split; [|split]; split.
  - intros [x [_ H]%construct_leaf]; [|done]. split.
    + apply (H "text"). find_property.
    + apply (H "icon_url"). find_property.
  - intros [H1 H2]. eexists. apply construct_store; [done|].
    intros k Hk. cases_elem_of Hk; assumption.
  - intros [x [_ H]%construct_leaf]; [|done]. split; [|split].
    + apply (H "name"). find_property.
    + apply (H "url"). find_property.
    + apply (H "icon_url"). find_property.
  - intros (H1 & H2 & H3). eexists. apply construct_store; [done|].
    intros k Hk. cases_elem_of Hk; assumption.
  - intros [x [_ H]%construct_leaf]; [|done]. split.
    + apply (H "name"). find_property.
    + apply (H "value"). find_property.
  - intros [H1 H2]. eexists. apply construct_store; [done|].
    intros k Hk. cases_elem_of Hk; assumption.
Qed.

Lemma construct_embed_inv kw x :
  construct C_Embed kw = Returned x ->
  exists l, x = VObj C_Embed (store C_Embed (with_arg "fields" (VList l) kw)).
Proof.
  intros (s & -> & H)%new_returned. unfold init, Embed.__init__ in H.
  invert_init H. use_setters C_Embed.
  match type of H with
  | Embed.fields_setter ?v ?st = _ =>
      destruct (fields_setter_store v st) as [[e He]|(l & r & Hl & Hok)];
      [congruence|rewrite Hl in H]
  end.
  injection H as <- _. by exists l.
Qed.

Lemma construct_reads c kw x k :
  construct c kw = Returned x -> k ∈ items c -> (c, k) ≠ (C_Embed, "fields") ->
  getattr x k = Returned (kw k).
Proof.
  intros H Hk Hne. destruct (leaf c) eqn:Hleaf.
  - apply construct_leaf in H as [-> _]; [|done]. by apply getattr_store.
  - destruct c; try done. apply construct_embed_inv in H as [l ->].
    rewrite getattr_store by done. unfold with_arg.
    destruct (String.eqb_spec k "fields") as [->|_]; done.
Qed.

(** X17: a constructor call that returns has stored every argument
    unchanged: each property reads as the argument given for it, and as
    [None] where none was given ([Embed.fields], which converts its
    argument, apart). *)
Theorem constructor_stores_arguments (c : pyclass) (kw : string -> value)
    (x : value) (k : string) :
  construct c kw = Returned x -> k ∈ items c -> (c, k) ≠ (C_Embed, "fields") ->
  getattr x k = Returned (kw k).
Proof. apply construct_reads. Qed.

(** X17 at [EmbedVideo(height=-1, width=-1)] and its [url], not given. *)
Lemma constructor_stores_arguments_witness :
  construct C_EmbedVideo (args [("height", VInt (-1)); ("width", VInt (-1))])
  = Returned video_negative
  /\ "url" ∈ items C_EmbedVideo
  /\ (C_EmbedVideo, "url") ≠ (C_Embed, "fields")
  /\ getattr video_negative "url"
     = Returned (args [("height", VInt (-1)); ("width", VInt (-1))] "url").
Proof.
  assert (H1 : construct C_EmbedVideo
                 (args [("height", VInt (-1)); ("width", VInt (-1))])
               = Returned video_negative) by (vm_compute; reflexivity).
  assert (H2 : "url" ∈ items C_EmbedVideo) by (apply list_elem_of_In; simpl; tauto).
  assert (H3 : (C_EmbedVideo, "url") ≠ (C_Embed, "fields")) by discriminate.
  split; [exact H1|]. split; [exact H2|]. split; [exact H3|].
  exact (constructor_stores_arguments _ _ _ _ H1 H2 H3).
Defined.

(** X18: an instance returned by [from_dict] reads, at each property, as
    the value the mapping has under that key, and as [None] where the
    mapping has no such key ([Embed.fields] apart). *)
Theorem from_dict_reads_the_mapping (c : pyclass) (d : gmap string value)
    (x : value) (k : string) :
  from_dict c (VDict d) = Returned x ->
  k ∈ items c -> (c, k) ≠ (C_Embed, "fields") ->
  getattr x k = Returned (default VNone (d !! k)).
Proof.
  rewrite from_dict_kwargs. unfold kwargs.
  destruct (filter _ _); [|done]. simpl. intros H Hk Hne.
  by rewrite (construct_reads c _ x k H Hk Hne).
Qed.

(** X18 at [EmbedProvider.from_dict({"name": "n"})] and its [url]. *)
Lemma from_dict_reads_the_mapping_witness :
  from_dict C_EmbedProvider (VDict {[ "name" := VStr "n" ]})
  = Returned (VObj C_EmbedProvider {[ "_name" := VStr "n"; "_url" := VNone ]})
  /\ "url" ∈ items C_EmbedProvider
  /\ (C_EmbedProvider, "url") ≠ (C_Embed, "fields")
  /\ getattr (VObj C_EmbedProvider {[ "_name" := VStr "n"; "_url" := VNone ]}) "url"
     = Returned (default VNone (({[ "name" := VStr "n" ]} : gmap string value) !! "url")).
Proof.
  assert (H1 : from_dict C_EmbedProvider (VDict {[ "name" := VStr "n" ]})
               = Returned (VObj C_EmbedProvider
                             {[ "_name" := VStr "n"; "_url" := VNone ]}))
    by (vm_compute; reflexivity).
  assert (H2 : "url" ∈ items C_EmbedProvider)
    by (apply list_elem_of_In; simpl; tauto).
  assert (H3 : (C_EmbedProvider, "url") ≠ (C_Embed, "fields")) by discriminate.
  split; [exact H1|]. split; [exact H2|]. split; [exact H3|].
  exact (from_dict_reads_the_mapping _ _ _ _ H1 H2 H3).
Defined.

(** X19: the constants of [Color] are pairwise distinct 24-bit values, and
    each of them, assigned to the [color] of an [Embed] the program can
    hold, is stored and appears under [color] in its [dict]. *)
Theorem palette_colors_are_usable (n : Z) (e : value) :
  n ∈ Color.palette -> reachable C_Embed e ->
  NoDup Color.palette
  /\ (0 <= n <= 0xFFFFFF)%Z
  /\ exists e', assign e "color" (VInt n) = (e', Returned tt)
                /\ getattr e' "color" = Returned (VInt n)
                /\ exists m, dict e' = Returned m /\ m !! "color" = Some (VInt n).
Proof.
  intros Hn (kw & -> & Hkw)%reachable_store. split; [|split].
  - apply NoDup_ListNoDup. unfold Color.palette.
    repeat (constructor; [simpl; intuition discriminate|]). constructor.
  - unfold Color.palette in Hn. cases_elem_of Hn; vm_compute; split; discriminate.
  - assert (Hc : "color" ∈ items C_Embed) by find_property.
    eexists. rewrite assign_accepts by done. split; [done|].
    rewrite getattr_store, with_arg_same by done. split; [done|].
    exists (mapping_of C_Embed (with_arg "color" (VInt n) kw)).
    split; [apply dict_store|].
    rewrite lookup_mapping_of, with_arg_same. by rewrite decide_True.
Qed.

(** X19 at [Color.Navy] and [Embed()]. *)
Lemma palette_colors_are_usable_witness :
  Color.Navy ∈ Color.palette
  /\ reachable C_Embed (embed_with VNone (VList []))
  /\ NoDup Color.palette
  /\ (0 <= Color.Navy <= 0xFFFFFF)%Z
  /\ exists e', assign (embed_with VNone (VList [])) "color" (VInt Color.Navy)
                = (e', Returned tt)
                /\ getattr e' "color" = Returned (VInt Color.Navy)
                /\ exists m, dict e' = Returned m
                             /\ m !! "color" = Some (VInt Color.Navy).
Proof.
  assert (H1 : Color.Navy ∈ Color.palette) by (apply list_elem_of_In; simpl; tauto).
  assert (H2 : reachable C_Embed (embed_with VNone (VList []))).
  { apply (reachable_new C_Embed (args [])). vm_compute. reflexivity. }
  split; [exact H1|]. split; [exact H2|].
  exact (palette_colors_are_usable _ _ H1 H2).
Defined.

Lemma fields_loop_returned l s s' acc :
  for_each l Embed.fields_item s = (s', Returned tt) ->
  s !! "_fields" = Some (VList acc) ->
  exists fs, Forall2 taken_as l fs /\ s' = <["_fields" := VList (acc ++ fs)]> s.
Proof.
  revert s acc. induction l as [|x l IH]; intros s acc Hrun Hs.
  - injection Hrun as <-. exists []. split; [constructor|].
    by rewrite app_nil_r, insert_id.
  - simpl in Hrun. unfold mbind at 1, M_bind at 1 in Hrun.
    assert (Hx : exists f, taken_as x f
                   /\ Embed.fields_item x s
                      = (<["_fields" := VList (acc ++ [f])]> s, Returned tt)).
    { destruct (Embed.fields_item x s) as [s1 [[]|e]] eqn:Hitem; [|done].
      clear Hrun. unfold Embed.fields_item in Hitem. fold (is_field x) in Hitem.
      destruct (is_field x) eqn:Hf.
      - exists x. rewrite (append_fields s acc x Hs) in Hitem.
        split; [by left | done].
      - destruct (isinstance x dict_t) eqn:Hd; [|done].
        unfold mbind, M_bind, lift in Hitem.
        destruct (EmbedField.from_dict x) as [f|e] eqn:Hfrom; [|done].
        exists f. rewrite (append_fields s acc f Hs) in Hitem.
        split; [by right | done]. }
    destruct Hx as (f & Hf & Hitem). rewrite Hitem in Hrun.
    apply (IH _ (acc ++ [f])%list) in Hrun as (fs & Hfs & ->);
      [|by rewrite lookup_insert_eq].
    exists (f :: fs). split; [by constructor|].
    by rewrite insert_insert_eq, <- app_assoc.
Qed.

(** X20: an assignment of a list to [Embed.fields] that returns had at most
    25 elements, each a field or a mapping [EmbedField.from_dict] accepts,
    and the embed then holds the fields taken from them, in order. *)
Theorem fields_returned_means_all_taken (l : list value) (s : gmap string value)
    (x : value) :
  assign (VObj C_Embed s) "fields" (VList l) = (x, Returned tt) ->
  length l <= 25
  /\ exists fs, Forall2 taken_as l fs
                /\ x = VObj C_Embed (<["_fields" := VList fs]> s).
Proof.
  rewrite assign_fields, fields_setter_list. case_bool_decide as Hlen; [done|].
  destruct (for_each l Embed.fields_item (<["_fields" := VList []]> s))
    as [s' r] eqn:Hrun.
  intros [= <- ->]. split; [lia|].
  apply (fields_loop_returned l _ s' []) in Hrun as (fs & Hfs & ->);
    [|by rewrite lookup_insert_eq].
  exists fs. split; [done|]. by rewrite insert_insert_eq.
Qed.

(** X20 at [[{"name": "n", "value": "v"}]] assigned to the fields of
    [Embed()]. *)
Lemma fields_returned_means_all_taken_witness :
  assign (embed_with VNone (VList [])) "fields" (VList [mapping_nv])
  = (embed_with VNone (VList [field_nv]), Returned tt)
  /\ length [mapping_nv] <= 25
  /\ exists fs, Forall2 taken_as [mapping_nv] fs
                /\ embed_with VNone (VList [field_nv])
                   = VObj C_Embed
                       (<["_fields" := VList fs]> (embed_store VNone (VList []))).
Proof.
  assert (H : assign (embed_with VNone (VList [])) "fields" (VList [mapping_nv])
              = (embed_with VNone (VList [field_nv]), Returned tt))
    by (vm_compute; reflexivity).
  split; [exact H|].
  exact (fields_returned_means_all_taken [mapping_nv]
           (embed_store VNone (VList [])) _ H).
Defined.
